(** * caddy-events-kafka: the Kafka event handler of [module.go]

    A shallow embedding of [KafkaHandler] and of its four methods
    ([UnmarshalCaddyfile], [Validate], [Provision], [Handle]), together with
    the parts of the Go standard library ([strings.Split],
    [strings.TrimSpace]) and of Caddy's [caddyfile.Dispenser] that the
    methods call.

    Go strings are byte sequences: they are modelled by [string], whose
    characters are the 256 byte values.  Go's [int] is modelled by [Z]; the
    values that occur (cursors, nesting depths, line numbers) stay far from
    the machine bounds.  A Go slice is [option (list A)]: [None] is the nil
    slice, which has length 0 like the empty one. *)

From Stdlib Require Import String Ascii List ZArith Lia Bool.
Import ListNotations.
Local Open Scope string_scope.
Local Open Scope list_scope.
Local Open Scope Z_scope.

(** ** Go values *)

Module Go.

(** A slice header: nil, or a (possibly empty) sequence of elements. *)
Definition slice (A : Type) : Type := option (list A).

(** [len(s)]; the nil slice has length 0. *)
Definition len {A : Type} (s : slice A) : Z :=
  match s with
  | None => 0
  | Some l => Z.of_nat (List.length l)
  end.

(** [make([]T, 0)]: an empty slice that is not nil. *)
Definition make {A : Type} : slice A := Some [].

(** [append(s, x)]. *)
Definition append {A : Type} (s : slice A) (x : A) : slice A :=
  match s with
  | None => Some [x]
  | Some l => Some (l ++ [x])
  end.

(** The elements of a slice, for [range] and for variadic calls. *)
Definition elems {A : Type} (s : slice A) : list A :=
  match s with
  | None => []
  | Some l => l
  end.

(** The string made of the given byte values. *)
Definition bytes (codes : list nat) : string :=
  string_of_list_ascii (List.map ascii_of_nat codes).

(** [strings.Split(s, sep)] for a separator [sep] of one byte: the
    substrings of [s] between the occurrences of [sep], in order.  The
    result always has one more element than [s] has separators. *)
Fixpoint Split (s : string) (sep : ascii) : list string :=
  match s with
  | EmptyString => [EmptyString]
  | String c s' =>
      if Ascii.eqb c sep then EmptyString :: Split s' sep
      else match Split s' sep with
           | p :: ps => String c p :: ps
           | [] => [String c EmptyString]
           end
  end.

(** [strings.Join(elems, sep)] for a separator of one byte. *)
Fixpoint Join (l : list string) (sep : ascii) : string :=
  match l with
  | [] => EmptyString
  | [p] => p
  | p :: ps => (p ++ String sep (Join ps sep))%string
  end.

(** UTF-8 encodings of the code points with Unicode's White_Space
    property, which is what [unicode.IsSpace] tests: the six ASCII ones
    (tab, LF, VT, FF, CR, space), U+0085, U+00A0, U+1680, U+2000..U+200A,
    U+2028, U+2029, U+202F, U+205F and U+3000. *)
Definition spaces : list string :=
  List.map bytes
    [ [9]; [10]; [11]; [12]; [13]; [32];
      [194; 133]; [194; 160];
      [225; 154; 128];
      [226; 128; 128]; [226; 128; 129]; [226; 128; 130]; [226; 128; 131];
      [226; 128; 132]; [226; 128; 133]; [226; 128; 134]; [226; 128; 135];
      [226; 128; 136]; [226; 128; 137]; [226; 128; 138];
      [226; 128; 168]; [226; 128; 169]; [226; 128; 175];
      [226; 129; 159];
      [227; 128; 128] ]%nat.

(** [strings.CutPrefix]: [s] without the leading [p], when [s] starts
    with [p]. *)
Fixpoint CutPrefix (s p : string) {struct p} : option string :=
  match p, s with
  | EmptyString, _ => Some s
  | String a p', String b s' => if Ascii.eqb a b then CutPrefix s' p' else None
  | String _ _, EmptyString => None
  end.

(** The rest of [s] after its first rune, when that rune is white space
    (the first of [sps] that [s] starts with). *)
Fixpoint cutSpace (sps : list string) (s : string) : option string :=
  match sps with
  | [] => None
  | p :: sps' =>
      match CutPrefix s p with
      | Some r => Some r
      | None => cutSpace sps' s
      end
  end.

(** Drops white-space runes from the front, at most [n] of them. *)
Fixpoint trimLeft (sps : list string) (n : nat) (s : string) : string :=
  match n with
  | O => s
  | S n' =>
      match cutSpace sps s with
      | Some r => trimLeft sps n' r
      | None => s
      end
  end.

(** Reversal of a byte string. *)
Definition rev (s : string) : string :=
  string_of_list_ascii (List.rev (list_ascii_of_string s)).

(** [strings.TrimLeftFunc(s, unicode.IsSpace)]: a string of [n] bytes
    starts with at most [n] white-space runes. *)
Definition TrimLeft (s : string) : string :=
  trimLeft spaces (String.length s) s.

(** [strings.TrimRightFunc(s, unicode.IsSpace)]: the same from the back,
    where a white-space rune is met as its encoding read backwards. *)
Definition TrimRight (s : string) : string :=
  rev (trimLeft (List.map rev spaces) (String.length s) (rev s)).

(** [strings.TrimSpace(s)]: [s] without its leading and trailing Unicode
    white space. *)
Definition TrimSpace (s : string) : string := TrimRight (TrimLeft s).

(** [strings.Contains(s, substr)]. *)
Fixpoint Contains (s substr : string) : bool :=
  match CutPrefix s substr with
  | Some _ => true
  | None =>
      match s with
      | EmptyString => false
      | String _ s' => Contains s' substr
      end
  end.

(** A Go [error] value that is not nil: one made by [fmt.Errorf] or
    [errors.New], known by its message, or one made by the dispenser's
    [WrapErr], which attaches the file and line of the current token to
    a message. *)
Inductive error : Type :=
| Errorf (msg : string)
| WrapErr (msg : string) (file : string) (line : Z).

End Go.

(** ** Caddy's token dispenser

    The methods of [caddyfile.Dispenser] (package
    [github.com/caddyserver/caddy/v2/caddyconfig/caddyfile]) that
    [UnmarshalCaddyfile] calls, with the token fields they read.  A method
    with a pointer receiver returns the dispenser it leaves behind. *)

Module caddyfile.

Record Token : Type := mkToken {
  File : string;
  imports : list string;
  Line : Z;
  Text : string;
  wasQuoted : Z  (* the quoting rune, 0 when the token was not quoted *)
}.

Record Dispenser : Type := mkDispenser {
  tokens : list Token;
  cursor : Z;
  nesting : Z
}.

(** [NewDispenser(tokens)]: the cursor starts before the first token. *)
Definition NewDispenser (toks : list Token) : Dispenser :=
  {| tokens := toks; cursor := -1; nesting := 0 |}.

Definition set_cursor (c : Z) (d : Dispenser) : Dispenser :=
  {| tokens := tokens d; cursor := c; nesting := nesting d |}.

Definition set_nesting (n : Z) (d : Dispenser) : Dispenser :=
  {| tokens := tokens d; cursor := cursor d; nesting := n |}.

Definition ntokens (d : Dispenser) : Z := Z.of_nat (List.length (tokens d)).

(** [d.tokens[i]], for an index that is in range. *)
Definition token_at (d : Dispenser) (i : Z) : option Token :=
  if (i <? 0) || (ntokens d <=? i) then None
  else nth_error (tokens d) (Z.to_nat i).

(** [d.Val()]: the text of the current token, empty outside the tokens. *)
Definition Val (d : Dispenser) : string :=
  match token_at d (cursor d) with
  | Some t => Text t
  | None => EmptyString
  end.

(** [d.Next()]: loads the next token, whatever line it is on. *)
Definition Next (d : Dispenser) : bool * Dispenser :=
  if cursor d <? ntokens d - 1
  then (true, set_cursor (cursor d + 1) d)
  else (false, d).

(** [strings.Count(t.Text, "\n")]. *)
Fixpoint countLF (s : string) : Z :=
  match s with
  | EmptyString => 0
  | String c s' => (if Ascii.eqb c "010"%char then 1 else 0) + countLF s'
  end.

(** [t.NumLineBreaks()]: a heredoc (quoting rune '<') spans two more
    lines than its text shows. *)
Definition NumLineBreaks (t : Token) : Z :=
  countLF (Text t) + (if wasQuoted t =? 60 then 2 else 0).

(** Go's [!=] on the import chains, element by element. *)
Fixpoint sameImports (l1 l2 : list string) : bool :=
  match l1, l2 with
  | [], [] => true
  | a :: l1', b :: l2' => String.eqb a b && sameImports l1' l2'
  | _, _ => false
  end.

(** [isNextOnNewLine(t1, t2)]. *)
Definition isNextOnNewLine (t1 t2 : Token) : bool :=
  if negb (String.eqb (File t1) (File t2)) then true
  else if negb (sameImports (imports t1) (imports t2)) then true
  else Line t1 + NumLineBreaks t1 <? Line t2.

(** [d.nextOnSameLine()]: moves to the next token only when it is on the
    line of the current one. *)
Definition nextOnSameLine (d : Dispenser) : bool * Dispenser :=
  if cursor d <? 0 then (true, set_cursor (cursor d + 1) d)
  else if ntokens d - 1 <=? cursor d then (false, d)
  else
    match token_at d (cursor d), token_at d (cursor d + 1) with
    | Some curr, Some next =>
        if negb (isNextOnNewLine curr next)
        then (true, set_cursor (cursor d + 1) d)
        else (false, d)
    | _, _ => (false, d)
    end.

(** [d.NextArg()]: the next token of the line, unless it opens a block. *)
Definition NextArg (d : Dispenser) : bool * Dispenser :=
  let (ok, d1) := nextOnSameLine d in
  if negb ok then (false, d1)
  else if String.eqb (Val d1) "{"
       then (false, set_cursor (cursor d1 - 1) d1)
       else (true, d1).

(** [d.Args(targets...)]: loads one argument per target and stores it
    through the pointer; the targets are given by the assignments they
    stand for, on the store [S] the pointers lead into.  Arguments loaded
    before a missing one stay assigned. *)
Fixpoint Args {S : Type} (targets : list (string -> S -> S))
         (s : S) (d : Dispenser) : bool * S * Dispenser :=
  match targets with
  | [] => (true, s, d)
  | target :: rest =>
      let (ok, d1) := NextArg d in
      if negb ok then (false, s, d1)
      else Args rest (target (Val d1) s) d1
  end.

(** A condition [b && !d.nextOnSameLine()]: Go evaluates the call, and
    lets it move the cursor, only when [b] holds. *)
Definition andNotNextOnSameLine (b : bool) (d : Dispenser)
  : bool * Dispenser :=
  if b then let (same, d1) := nextOnSameLine d in (negb same, d1)
  else (false, d).

(** [d.NextBlock(initialNestingLevel)]. *)
Definition NextBlock (initialNestingLevel : Z) (d : Dispenser)
  : bool * Dispenser :=
  if initialNestingLevel <? nesting d then
    let (ok, d1) := Next d in
    if negb ok then (false, d1)
    else
      let (closes, d2) := andNotNextOnSameLine (String.eqb (Val d1) "}") d1 in
      let d4 :=
        if closes then set_nesting (nesting d2 - 1) d2
        else
          let (opens, d3) :=
            andNotNextOnSameLine (String.eqb (Val d2) "{") d2 in
          if opens then set_nesting (nesting d3 + 1) d3 else d3 in
      (initialNestingLevel <? nesting d4, d4)
  else
    let (same, d1) := nextOnSameLine d in
    if negb same then (false, d1)
    else if negb (String.eqb (Val d1) "{")
         then (false, set_cursor (cursor d1 - 1) d1)
         else
           let (_, d2) := Next d1 in
           if String.eqb (Val d2) "}" then (false, d2)
           else (true, set_nesting (nesting d2 + 1) d2).

(** [d.File()] and [d.Line()]: the position of the current token. *)
Definition curFile (d : Dispenser) : string :=
  match token_at d (cursor d) with
  | Some t => File t
  | None => EmptyString
  end.

Definition curLine (d : Dispenser) : Z :=
  match token_at d (cursor d) with
  | Some t => Line t
  | None => 0
  end.

(** [d.ArgErr()]: the error for a missing or unexpected argument. *)
Definition ArgErr (d : Dispenser) : Go.error :=
  if String.eqb (Val d) "{"
  then Go.WrapErr "unexpected token '{', expecting argument"
                  (curFile d) (curLine d)
  else Go.WrapErr ("wrong argument count or unexpected line ending after '"
                     ++ Val d ++ "'")%string
                  (curFile d) (curLine d).

End caddyfile.

(** ** Collaborators of the handler: logger, TLS, SASL, Kafka writer *)

(** [*zap.Logger], as handed out by [ctx.Logger]. *)
Inductive Logger : Type := zapLogger.

(** [caddy.Context], of which [Provision] uses the logger only. *)
Record Context : Type := { ctxLogger : Logger }.

(** [tls.Config], of which [Provision] sets one field. *)
Record tlsConfig : Type := { InsecureSkipVerify : bool }.

Module scram.

(** [scram.Algorithm]: the two hash choices of kafka-go's SCRAM. *)
Inductive Algorithm : Type := SHA256 | SHA512.

(** The [sasl.Mechanism] that [scram.Mechanism] builds. *)
Record mechanism : Type := {
  algo : Algorithm;
  user : string;
  pass : string
}.

End scram.

Module kafka.

(** [kafka.Transport]: both fields are nil until they are set. *)
Record Transport : Type := {
  TLS : option tlsConfig;
  SASL : option scram.mechanism
}.

(** The [net.Addr] of a writer, known by the call that makes it:
    [kafka.TCP(address...)].  The call is kept as it is written and is not
    evaluated: what kafka-go makes of the addresses (it gives a default port
    to an address without one, and a nil address for no address at all) is
    not modelled. *)
Inductive NetAddr : Type := TCP (address : list string).

(** [kafka.Writer], with the fields [Provision] sets. *)
Record Writer : Type := {
  Addr : NetAddr;
  Async : bool;
  WTransport : option Transport
}.

(** [time.Time]: an instant. *)
Inductive Time : Type := Instant (unixNano : Z).

(** [kafka.Message], with the fields [Handle] sets. *)
Record Message : Type := {
  Key : list Byte.byte;
  Value : list Byte.byte;
  MTopic : string;
  MTime : Time
}.

End kafka.

(** [caddyevents.CloudEvent], the envelope of an event. *)
Record CloudEvent : Type := {
  ID : string;
  Source : string;
  SpecVersion : string;
  Type_ : string;
  Time : kafka.Time;
  DataContentType : string;
  Data : list Byte.byte
}.

(** ** The handler *)

Definition SASLAlgorithm : Type := string.
Definition SASLMethodSHA256 : SASLAlgorithm := "sha256".
Definition SASLMethodSHA512 : SASLAlgorithm := "sha512".

Record KafkaHandler : Type := {
  logger : option Logger;
  writer : option kafka.Writer;
  BootstrapServers : Go.slice string;
  Topic : string;
  TLSEnabled : bool;
  TLSNoVerify : bool;
  SASLAuth : bool;
  SASLAlgorithm_ : SASLAlgorithm;
  SASLUsername : string;
  SASLPassword : string
}.

(** [new(KafkaHandler)]: every field has its zero value. *)
Definition newKafkaHandler : KafkaHandler :=
  {| logger := None; writer := None; BootstrapServers := None;
     Topic := ""; TLSEnabled := false; TLSNoVerify := false;
     SASLAuth := false; SASLAlgorithm_ := ""; SASLUsername := "";
     SASLPassword := "" |}.

(** Assignments to the fields of [*h]. *)
Definition set_logger (v : option Logger) (h : KafkaHandler) : KafkaHandler :=
  {| logger := v; writer := writer h; BootstrapServers := BootstrapServers h;
     Topic := Topic h; TLSEnabled := TLSEnabled h; TLSNoVerify := TLSNoVerify h;
     SASLAuth := SASLAuth h; SASLAlgorithm_ := SASLAlgorithm_ h;
     SASLUsername := SASLUsername h; SASLPassword := SASLPassword h |}.

Definition set_writer (v : option kafka.Writer) (h : KafkaHandler)
  : KafkaHandler :=
  {| logger := logger h; writer := v; BootstrapServers := BootstrapServers h;
     Topic := Topic h; TLSEnabled := TLSEnabled h; TLSNoVerify := TLSNoVerify h;
     SASLAuth := SASLAuth h; SASLAlgorithm_ := SASLAlgorithm_ h;
     SASLUsername := SASLUsername h; SASLPassword := SASLPassword h |}.

Definition set_BootstrapServers (v : Go.slice string) (h : KafkaHandler)
  : KafkaHandler :=
  {| logger := logger h; writer := writer h; BootstrapServers := v;
     Topic := Topic h; TLSEnabled := TLSEnabled h; TLSNoVerify := TLSNoVerify h;
     SASLAuth := SASLAuth h; SASLAlgorithm_ := SASLAlgorithm_ h;
     SASLUsername := SASLUsername h; SASLPassword := SASLPassword h |}.

Definition set_Topic (v : string) (h : KafkaHandler) : KafkaHandler :=
  {| logger := logger h; writer := writer h;
     BootstrapServers := BootstrapServers h;
     Topic := v; TLSEnabled := TLSEnabled h; TLSNoVerify := TLSNoVerify h;
     SASLAuth := SASLAuth h; SASLAlgorithm_ := SASLAlgorithm_ h;
     SASLUsername := SASLUsername h; SASLPassword := SASLPassword h |}.

Definition set_TLSEnabled (v : bool) (h : KafkaHandler) : KafkaHandler :=
  {| logger := logger h; writer := writer h;
     BootstrapServers := BootstrapServers h;
     Topic := Topic h; TLSEnabled := v; TLSNoVerify := TLSNoVerify h;
     SASLAuth := SASLAuth h; SASLAlgorithm_ := SASLAlgorithm_ h;
     SASLUsername := SASLUsername h; SASLPassword := SASLPassword h |}.

Definition set_TLSNoVerify (v : bool) (h : KafkaHandler) : KafkaHandler :=
  {| logger := logger h; writer := writer h;
     BootstrapServers := BootstrapServers h;
     Topic := Topic h; TLSEnabled := TLSEnabled h; TLSNoVerify := v;
     SASLAuth := SASLAuth h; SASLAlgorithm_ := SASLAlgorithm_ h;
     SASLUsername := SASLUsername h; SASLPassword := SASLPassword h |}.

Definition set_SASLAuth (v : bool) (h : KafkaHandler) : KafkaHandler :=
  {| logger := logger h; writer := writer h;
     BootstrapServers := BootstrapServers h;
     Topic := Topic h; TLSEnabled := TLSEnabled h; TLSNoVerify := TLSNoVerify h;
     SASLAuth := v; SASLAlgorithm_ := SASLAlgorithm_ h;
     SASLUsername := SASLUsername h; SASLPassword := SASLPassword h |}.

Definition set_SASLAlgorithm (v : SASLAlgorithm) (h : KafkaHandler)
  : KafkaHandler :=
  {| logger := logger h; writer := writer h;
     BootstrapServers := BootstrapServers h;
     Topic := Topic h; TLSEnabled := TLSEnabled h; TLSNoVerify := TLSNoVerify h;
     SASLAuth := SASLAuth h; SASLAlgorithm_ := v;
     SASLUsername := SASLUsername h; SASLPassword := SASLPassword h |}.

Definition set_SASLUsername (v : string) (h : KafkaHandler) : KafkaHandler :=
  {| logger := logger h; writer := writer h;
     BootstrapServers := BootstrapServers h;
     Topic := Topic h; TLSEnabled := TLSEnabled h; TLSNoVerify := TLSNoVerify h;
     SASLAuth := SASLAuth h; SASLAlgorithm_ := SASLAlgorithm_ h;
     SASLUsername := v; SASLPassword := SASLPassword h |}.

Definition set_SASLPassword (v : string) (h : KafkaHandler) : KafkaHandler :=
  {| logger := logger h; writer := writer h;
     BootstrapServers := BootstrapServers h;
     Topic := Topic h; TLSEnabled := TLSEnabled h; TLSNoVerify := TLSNoVerify h;
     SASLAuth := SASLAuth h; SASLAlgorithm_ := SASLAlgorithm_ h;
     SASLUsername := SASLUsername h; SASLPassword := v |}.

(** *** Validate *)

(** [func (h *KafkaHandler) Validate() error]; [None] is the nil error. *)
Definition Validate (h : KafkaHandler) : option Go.error :=
  if match BootstrapServers h with None => true | Some _ => false end
     || (Go.len (BootstrapServers h) =? 0)
  then Some (Go.Errorf "kafka bootstrap_servers missing")
  else if String.eqb (Topic h) ""
  then Some (Go.Errorf "kafka topic missing")
  else if SASLAuth h then
    if String.eqb (SASLUsername h) ""
    then Some (Go.Errorf "kafka missing sasl username")
    else if String.eqb (SASLPassword h) ""
    then Some (Go.Errorf "kafka missing sasl username")
    else if negb (String.eqb (SASLAlgorithm_ h) "sha256")
            && negb (String.eqb (SASLAlgorithm_ h) "sha512")
    then Some (Go.Errorf "kafka invalid sasl algorithm")
    else None
  else None.

(** *** UnmarshalCaddyfile *)

(** The store behind the three pointers of the [sasl_scram] case: the local
    [mech] and the handler. *)
Definition store_mech (v : string) (s : string * KafkaHandler)
  : string * KafkaHandler := (v, snd s).

Definition store_handler (f : string -> KafkaHandler -> KafkaHandler)
           (v : string) (s : string * KafkaHandler) : string * KafkaHandler :=
  (fst s, f v (snd s)).

(** The [for _, item := range items] loop of the [bootstrap_servers] case. *)
Definition appendTrimmed (servers : Go.slice string) (items : list string)
  : Go.slice string :=
  List.fold_left (fun acc item => Go.append acc (Go.TrimSpace item))
                 items servers.

(** The body of the [for d.NextBlock(0)] loop: the [switch] on the current
    token.  It yields the error returned from inside the loop ([None] when
    the loop goes on), the handler and the dispenser. *)
Definition directive (h : KafkaHandler) (d : caddyfile.Dispenser)
  : option Go.error * KafkaHandler * caddyfile.Dispenser :=
  let val := caddyfile.Val d in
  if String.eqb val "topic" then
    let '(ok, h1, d1) := caddyfile.Args [set_Topic] h d in
    if negb ok then (Some (caddyfile.ArgErr d1), h1, d1)
    else (None, h1, d1)
  else if String.eqb val "sasl_scram" then
    let '(ok, s1, d1) :=
      caddyfile.Args [store_mech; store_handler set_SASLUsername;
                      store_handler set_SASLPassword] ("", h) d in
    let mech := fst s1 in
    let h1 := snd s1 in
    if negb ok then (Some (caddyfile.ArgErr d1), h1, d1)
    else if String.eqb mech "sha256" then
      (None, set_SASLAuth true (set_SASLAlgorithm SASLMethodSHA256 h1), d1)
    else if String.eqb mech "sha512" then
      (None, set_SASLAuth true (set_SASLAlgorithm SASLMethodSHA512 h1), d1)
    else (Some (Go.Errorf ("unsupported SCRAM method: " ++ mech)%string), h1, d1)
  else if String.eqb val "tls" then
    let '(ok, tls_enabled, d1) :=
      caddyfile.Args [fun v (_ : string) => v] "" d in
    if negb ok then (Some (caddyfile.ArgErr d1), h, d1)
    else if String.eqb tls_enabled "on" then (None, set_TLSEnabled true h, d1)
    else if String.eqb tls_enabled "off" then (None, set_TLSEnabled false h, d1)
    else (Some (Go.Errorf "invalid value for tls"), h, d1)
  else if String.eqb val "tls_no_verify" then
    (None, set_TLSNoVerify true h, d)
  else if String.eqb val "bootstrap_servers" then
    let (ok, d1) := caddyfile.Next d in
    if negb ok then (Some (caddyfile.ArgErr d1), h, d1)
    else
      let items := Go.Split (caddyfile.Val d1) ","%char in
      (None, set_BootstrapServers (appendTrimmed Go.make items) h, d1)
  else (Some (Go.Errorf ("unsupported argument: " ++ val)%string), h, d).

(** The [for d.NextBlock(0) { ... }] loop, run for at most [fuel] rounds;
    [None] when the rounds do not suffice. *)
Fixpoint blockLoop (fuel : nat) (h : KafkaHandler) (d : caddyfile.Dispenser)
  : option (option Go.error * KafkaHandler * caddyfile.Dispenser) :=
  match fuel with
  | O => None
  | S fuel' =>
      let (more, d1) := caddyfile.NextBlock 0 d in
      if negb more then Some (None, h, d1)
      else
        match directive h d1 with
        | (Some e, h1, d2) => Some (Some e, h1, d2)
        | (None, h1, d2) => blockLoop fuel' h1 d2
        end
  end.

(** Every round of the loop moves the cursor forward, so the tokens left
    bound the number of rounds. *)
Definition rounds (d : caddyfile.Dispenser) : nat :=
  S (Z.to_nat (caddyfile.ntokens d - caddyfile.cursor d)).

(** [func (h *KafkaHandler) UnmarshalCaddyfile(d *caddyfile.Dispenser) error]:
    the returned error ([None] for nil) with the handler and the dispenser
    as the call leaves them. *)
Definition UnmarshalCaddyfile (h : KafkaHandler) (d : caddyfile.Dispenser)
  : option (option Go.error * KafkaHandler * caddyfile.Dispenser) :=
  let (ok, d1) := caddyfile.Next d in
  if negb ok then Some (Some (caddyfile.ArgErr d1), h, d1)
  else blockLoop (rounds d1) h d1.

(** *** Provision *)

(** How a call ends: it returns its [error] result, or it panics with a
    value (here always an error, given by its message). *)
Inductive exit : Type :=
| Returns (e : option Go.error)
| Panics (v : string).

(** The [scram.Algorithm] chosen for the configured algorithm; [None] is
    the final [else] branch. *)
Definition scramMethod (a : SASLAlgorithm) : option scram.Algorithm :=
  if String.eqb a SASLMethodSHA256 then Some scram.SHA256
  else if String.eqb a SASLMethodSHA512 then Some scram.SHA512
  else None.

Section Provisioning.

(** [scram.Mechanism(algo, username, password)] of kafka-go: the
    mechanism, or the message of the error it returns (it prepares the
    credentials with SASLprep, which rejects some strings). *)
Variable scramMechanism :
  scram.Algorithm -> string -> string -> scram.mechanism + string.

(** [h.writer] with the transport as it stands: the writer holds a pointer
    to the transport, so it sees every field set later. *)
Definition provisioned (ctx : Context) (t : kafka.Transport)
           (h : KafkaHandler) : KafkaHandler :=
  set_writer
    (Some {| kafka.Addr := kafka.TCP (Go.elems (BootstrapServers h));
             kafka.Async := true;
             kafka.WTransport := Some t |})
    (set_logger (Some (ctxLogger ctx)) h).

(** [func (h *KafkaHandler) Provision(ctx caddy.Context) error]. *)
Definition Provision (ctx : Context) (h : KafkaHandler)
  : exit * KafkaHandler :=
  let tls :=
    if TLSEnabled h
    then Some {| InsecureSkipVerify := if TLSNoVerify h then true else false |}
    else None in
  let transport := {| kafka.TLS := tls; kafka.SASL := None |} in
  if SASLAuth h then
    match scramMethod (SASLAlgorithm_ h) with
    | None =>
        (Returns (Some (Go.Errorf ("invalid sasl algorithm: "
                                     ++ SASLAlgorithm_ h)%string)),
         provisioned ctx transport h)
    | Some method =>
        match scramMechanism method (SASLUsername h) (SASLPassword h) with
        | inr err => (Panics err, provisioned ctx transport h)
        | inl mechanism =>
            (Returns None,
             provisioned ctx
               {| kafka.TLS := tls; kafka.SASL := Some mechanism |} h)
        end
    end
  else (Returns None, provisioned ctx transport h).

End Provisioning.

(** *** Handle *)

Section Publishing.

(** [caddyevents.Event] with its accessor [e.CloudEvent()]. *)
Variable Event : Type.
Variable CloudEventOf : Event -> CloudEvent.

(** [json.Marshal] on an envelope: the bytes, or the error's message. *)
Variable jsonMarshal : CloudEvent -> list Byte.byte + string.

(** [context.Context] and the state of the producer behind the writer. *)
Variable Ctx : Type.
Variable Producer : Type.

(** [w.WriteMessages(ctx, msgs...)]: the message of the error it returns
    ([None] for nil) and the producer it leaves behind. *)
Variable WriteMessages :
  option kafka.Writer -> Ctx -> list kafka.Message -> Producer ->
  option string * Producer.

(** The [kafka.Message] literal of [Handle]. *)
Definition outbound (h : KafkaHandler) (e : Event) (data : list Byte.byte)
  : kafka.Message :=
  {| kafka.Key := list_byte_of_string (ID (CloudEventOf e));
     kafka.Value := data;
     kafka.MTopic := Topic h;
     kafka.MTime := Time (CloudEventOf e) |}.

(** [func (h *KafkaHandler) Handle(ctx context.Context, e caddyevents.Event) error]. *)
Definition Handle (h : KafkaHandler) (ctx : Ctx) (e : Event) (p : Producer)
  : option Go.error * Producer :=
  match jsonMarshal (CloudEventOf e) with
  | inr err =>
      (Some (Go.Errorf ("failed to serialize event data: " ++ err)%string), p)
  | inl data =>
      match WriteMessages (writer h) ctx [outbound h e data] p with
      | (Some err, p1) =>
          (Some (Go.Errorf ("failed to write event to Kafka: " ++ err)%string),
           p1)
      | (None, p1) => (None, p1)
      end
  end.

End Publishing.

(** ** What the specification says about validation

    The invariants of a Configuration, as the specification lists them,
    each as a test; the SASL ones hold of every Configuration that has SASL
    disabled. *)

Definition hasServers (h : KafkaHandler) : bool :=
  0 <? Go.len (BootstrapServers h).

Definition hasTopic (h : KafkaHandler) : bool :=
  negb (String.eqb (Topic h) "").

Definition hasUsername (h : KafkaHandler) : bool :=
  negb (SASLAuth h) || negb (String.eqb (SASLUsername h) "").

Definition hasPassword (h : KafkaHandler) : bool :=
  negb (SASLAuth h) || negb (String.eqb (SASLPassword h) "").

Definition hasAlgorithm (h : KafkaHandler) : bool :=
  negb (SASLAuth h)
  || String.eqb (SASLAlgorithm_ h) "sha256"
  || String.eqb (SASLAlgorithm_ h) "sha512".

(** The invariants together, in the specification's words. *)
Definition invariants (h : KafkaHandler) : Prop :=
  BootstrapServers h <> None /\ BootstrapServers h <> Some [] /\
  Topic h <> "" /\
  (SASLAuth h = true ->
   SASLUsername h <> "" /\ SASLPassword h <> "" /\
   (SASLAlgorithm_ h = "sha256" \/ SASLAlgorithm_ h = "sha512")).

(** The rules of validation in the order the specification gives them, each
    with the error [Validate] reports for it. *)
Definition rules : list ((KafkaHandler -> bool) * Go.error) :=
  [ (hasServers, Go.Errorf "kafka bootstrap_servers missing");
    (hasTopic, Go.Errorf "kafka topic missing");
    (hasUsername, Go.Errorf "kafka missing sasl username");
    (hasPassword, Go.Errorf "kafka missing sasl username");
    (hasAlgorithm, Go.Errorf "kafka invalid sasl algorithm") ].

(** First failure wins: the error of the earliest rule that does not hold. *)
Fixpoint firstFailure (rs : list ((KafkaHandler -> bool) * Go.error))
         (h : KafkaHandler) : option Go.error :=
  match rs with
  | [] => None
  | (holds, e) :: rs' => if holds h then firstFailure rs' h else Some e
  end.

(** How many of the rules a Configuration violates. *)
Definition violations (h : KafkaHandler) : nat :=
  List.length (List.filter (fun r => negb (fst r h)) rules).

(** A Configuration that has SASL enabled with a username and no password,
    and names no bootstrap server. *)
Definition noServersNoPassword : KafkaHandler :=
  set_SASLUsername "u" (set_SASLAuth true (set_Topic "events" newKafkaHandler)).

(** ** Concrete collaborators and inputs *)

(** Whether a string holds an ASCII control character. *)
Fixpoint hasControl (s : string) : bool :=
  match s with
  | EmptyString => false
  | String c s' => (nat_of_ascii c <? 32)%nat || hasControl s'
  end.

(** A mechanism constructor that rejects credentials holding an ASCII
    control character, as SASLprep does (RFC 4013, prohibited output), and
    builds the mechanism otherwise. *)
Definition scramRejectingControls (a : scram.Algorithm) (u p : string)
  : scram.mechanism + string :=
  if hasControl u || hasControl p then inr "prohibited character"
  else inl {| scram.algo := a; scram.user := u; scram.pass := p |}.

(** A Configuration that passes [Validate] and whose SASL username is the
    single byte 7 (BEL). *)
Definition bellUser : KafkaHandler :=
  set_SASLPassword "p"
    (set_SASLUsername (Go.bytes [7%nat])
       (set_SASLAlgorithm SASLMethodSHA256
          (set_SASLAuth true
             (set_Topic "events"
                (set_BootstrapServers (Some ["localhost:9092"])
                   newKafkaHandler))))).

(** Text with every apostrophe turned into a double quote. *)
Fixpoint quoted (s : string) : string :=
  match s with
  | EmptyString => EmptyString
  | String c s' =>
      String (if Ascii.eqb c "'"%char then "034"%char else c) (quoted s')
  end.

(** The envelope of a [cert_obtained] event. *)
Definition certObtained : CloudEvent :=
  {| ID := "abc";
     Source := "tls";
     SpecVersion := "1.0";
     Type_ := "cert_obtained";
     Time := kafka.Instant 1692036575984688502;
     DataContentType := "application/json";
     Data := list_byte_of_string (quoted "{'renewal':false}") |}.

(** The JSON text of [certObtained]. *)
Definition certObtainedJSON : list Byte.byte :=
  list_byte_of_string
    (quoted ("{'id':'abc','source':'tls','specversion':'1.0',"
             ++ "'type':'cert_obtained','time':'2023-08-14T18:09:35.984688502Z',"
             ++ "'datacontenttype':'application/json','data':{'renewal':false}}")).

(** Equality of byte sequences. *)
Definition sameBytes (a b : list Byte.byte) : bool :=
  String.eqb (string_of_list_byte a) (string_of_list_byte b).

(** A codec that knows one envelope: it encodes [certObtained] (recognised
    by its identifier) as [certObtainedJSON] and decodes that text back. *)
Definition marshalCertObtained (ce : CloudEvent) : list Byte.byte + string :=
  if String.eqb (ID ce) "abc" then inl certObtainedJSON
  else inr "json: unsupported value".

Definition unmarshalCertObtained (b : list Byte.byte) : option CloudEvent :=
  if sameBytes b certObtainedJSON then Some certObtained else None.

(** A producer that keeps the messages it is given, in order, and never
    fails. *)
Definition enqueue (w : option kafka.Writer) (ctx : unit)
           (msgs : list kafka.Message) (queue : list kafka.Message)
  : option string * list kafka.Message :=
  (None, queue ++ msgs).

(** ** The layout of a directive block, as the dispenser reads it *)

(** The tokens after [curr] that are arguments of its line: those that
    follow on the same line, up to a token that opens a block. *)
Fixpoint argsAfter (curr : caddyfile.Token) (rest : list caddyfile.Token)
  : list caddyfile.Token :=
  match rest with
  | [] => []
  | t :: rest' =>
      if caddyfile.isNextOnNewLine curr t then []
      else if String.eqb (caddyfile.Text t) "{" then []
      else t :: argsAfter t rest'
  end.

(** The arguments of the directive at the cursor. *)
Definition lineArgs (d : caddyfile.Dispenser) : list string :=
  match caddyfile.token_at d (caddyfile.cursor d) with
  | None => []
  | Some curr =>
      List.map caddyfile.Text
        (argsAfter curr
           (List.skipn (S (Z.to_nat (caddyfile.cursor d))) (caddyfile.tokens d)))
  end.

(** What [d.Args] has stored once it returns: one value per target, as far
    as the values go. *)
Fixpoint assign {S : Type} (targets : list (string -> S -> S))
         (vals : list string) (s : S) : S :=
  match targets, vals with
  | target :: targets', v :: vals' => assign targets' vals' (target v s)
  | _, _ => s
  end.

(** The states in which the loop of [UnmarshalCaddyfile], started with
    handler [h0] and dispenser [d0], enters its body: after the first
    successful [NextBlock], and after each further one that follows a
    directive handled without error. *)
Inductive dispatched (h0 : KafkaHandler) (d0 : caddyfile.Dispenser)
  : KafkaHandler -> caddyfile.Dispenser -> Prop :=
| dispatched_first d1 :
    caddyfile.NextBlock 0 d0 = (true, d1) ->
    dispatched h0 d0 h0 d1
| dispatched_next h d h1 d1 d2 :
    dispatched h0 d0 h d ->
    directive h d = (None, h1, d1) ->
    caddyfile.NextBlock 0 d1 = (true, d2) ->
    dispatched h0 d0 h1 d2.

(** The names the [switch] of [UnmarshalCaddyfile] has a case for. *)
Definition directiveNames : list string :=
  ["topic"; "sasl_scram"; "tls"; "tls_no_verify"; "bootstrap_servers"].

(** A string that is a sequence of white-space encodings from [sps]. *)
Inductive spaceRun (sps : list string) : string -> Prop :=
| spaceRun_nil : spaceRun sps ""
| spaceRun_one p : In p sps -> spaceRun sps p
| spaceRun_app a b : spaceRun sps a -> spaceRun sps b ->
                     spaceRun sps (a ++ b)%string.

(** The SASL part of a Configuration is coherent: SASL is enabled only with
    one of the two algorithms. *)
Definition saslCoherent (h : KafkaHandler) : Prop :=
  SASLAuth h = true ->
  SASLAlgorithm_ h = "sha256" \/ SASLAlgorithm_ h = "sha512".

(** *** Example blocks *)

(** An unquoted token of the file [Caddyfile]. *)
Definition tok (line : Z) (text : string) : caddyfile.Token :=
  {| caddyfile.File := "Caddyfile"; caddyfile.imports := [];
     caddyfile.Line := line; caddyfile.Text := text;
     caddyfile.wasQuoted := 0 |}.

(** A quoted token. *)
Definition qtok (line : Z) (text : string) : caddyfile.Token :=
  {| caddyfile.File := "Caddyfile"; caddyfile.imports := [];
     caddyfile.Line := line; caddyfile.Text := text;
     caddyfile.wasQuoted := 34 |}.

(** [kafka {
       bootstrap_servers "localhost:9092"
       topic "events"
     }] *)
Definition plainBlock : list caddyfile.Token :=
  [ tok 1 "kafka"; tok 1 "{";
    tok 2 "bootstrap_servers"; qtok 2 "localhost:9092";
    tok 3 "topic"; qtok 3 "events";
    tok 4 "}" ].

(** [kafka {
       sasl_scram sha512 "u" "p"
     }] *)
Definition saslBlock : list caddyfile.Token :=
  [ tok 1 "kafka"; tok 1 "{";
    tok 2 "sasl_scram"; tok 2 "sha512"; qtok 2 "u"; qtok 2 "p";
    tok 3 "}" ].

(** [kafka {
       sasl_scram sha512 "u"
     }] *)
Definition saslNoPasswordBlock : list caddyfile.Token :=
  [ tok 1 "kafka"; tok 1 "{";
    tok 2 "sasl_scram"; tok 2 "sha512"; qtok 2 "u";
    tok 3 "}" ].

(** [kafka {
       bootstrap_servers " a:1 , b:2 "
     }] *)
Definition twoServersBlock : list caddyfile.Token :=
  [ tok 1 "kafka"; tok 1 "{";
    tok 2 "bootstrap_servers"; qtok 2 " a:1 , b:2 ";
    tok 3 "}" ].

(** [kafka {
       bootstrap_servers ""
       topic "events"
     }] *)
Definition emptyServerBlock : list caddyfile.Token :=
  [ tok 1 "kafka"; tok 1 "{";
    tok 2 "bootstrap_servers"; qtok 2 "";
    tok 3 "topic"; qtok 3 "events";
    tok 4 "}" ].

(** [kafka {
       bootstrap_servers
       foo
     }] *)
Definition strayDirectiveBlock : list caddyfile.Token :=
  [ tok 1 "kafka"; tok 1 "{";
    tok 2 "bootstrap_servers";
    tok 3 "foo";
    tok 4 "}" ].

(** [kafka {
       topic "events"
       foo bar
     }] *)
Definition unknownDirectiveBlock : list caddyfile.Token :=
  [ tok 1 "kafka"; tok 1 "{";
    tok 2 "topic"; qtok 2 "events";
    tok 3 "foo"; tok 3 "bar";
    tok 4 "}" ].

(** The dispenser at token [i] of [toks], inside the block. *)
Definition inBlockAt (toks : list caddyfile.Token) (i : Z)
  : caddyfile.Dispenser :=
  {| caddyfile.tokens := toks; caddyfile.cursor := i; caddyfile.nesting := 1 |}.

(** [d'] holds the tokens of [d], with the cursor where it was or further
    on. *)
Definition forward (d d' : caddyfile.Dispenser) : Prop :=
  caddyfile.tokens d' = caddyfile.tokens d /\
  caddyfile.cursor d <= caddyfile.cursor d'.

(** ** Proof support *)

(** The case analysis of the [switch] in [directive]. *)
Ltac directive_cases h d :=
  unfold directive;
  destruct (String.eqb (caddyfile.Val d) "topic") eqn:?Htopic;
  [|destruct (String.eqb (caddyfile.Val d) "sasl_scram") eqn:?Hsasl;
    [|destruct (String.eqb (caddyfile.Val d) "tls") eqn:?Htls;
      [|destruct (String.eqb (caddyfile.Val d) "tls_no_verify") eqn:?Hnoverify;
        [|destruct (String.eqb (caddyfile.Val d) "bootstrap_servers")
            eqn:?Hservers]]]].


(** ** Further example inputs *)

(** A Configuration that passes [Validate] with SASL enabled and printable
    credentials. *)
Definition saslUser : KafkaHandler :=
  set_SASLUsername "sasl_user" (set_SASLPassword "sasl_password" bellUser).

(** A Configuration as JSON can give it: SASL enabled with an algorithm the
    handler does not know. *)
Definition md5User : KafkaHandler :=
  set_SASLAlgorithm "md5" saslUser.

(** No token of the dispenser is the word [name]. *)
Definition absent (name : string) (d : caddyfile.Dispenser) : Prop :=
  forall t, In t (caddyfile.tokens d) -> caddyfile.Text t <> name.

(** ** Blocks, directive by directive *)

(** A directive together with the tokens of its arguments. *)
Inductive Directive : Type :=
| topicLine (kw v : caddyfile.Token)
| saslLine (kw a u p : caddyfile.Token)
| tlsLine (kw v : caddyfile.Token)
| noVerifyLine (kw : caddyfile.Token)
| serversLine (kw v : caddyfile.Token)
| unknownLine (kw : caddyfile.Token).

(** The tokens of a directive, in order. *)
Definition lineTokens (l : Directive) : list caddyfile.Token :=
  match l with
  | topicLine kw v => [kw; v]
  | saslLine kw a u p => [kw; a; u; p]
  | tlsLine kw v => [kw; v]
  | noVerifyLine kw => [kw]
  | serversLine kw v => [kw; v]
  | unknownLine kw => [kw]
  end.

(** The tokens [args] are arguments after [curr]: each follows the one
    before on the same line, and none opens a block. *)
Fixpoint areArgs (curr : caddyfile.Token) (args : list caddyfile.Token)
  : bool :=
  match args with
  | [] => true
  | t :: rest =>
      negb (caddyfile.isNextOnNewLine curr t)
      && negb (String.eqb (caddyfile.Text t) "{")
      && areArgs t rest
  end.

(** A directive is well formed when its first token is the name of its
    kind and the arguments that [d.Args] is to load are arguments of its
    line; the argument of [bootstrap_servers] may be any token.  An unknown
    directive has a name that is none of the five, nor a brace. *)
Definition wellFormed (l : Directive) : Prop :=
  match l with
  | topicLine kw v =>
      caddyfile.Text kw = "topic" /\ areArgs kw [v] = true
  | saslLine kw a u p =>
      caddyfile.Text kw = "sasl_scram" /\ areArgs kw [a; u; p] = true
  | tlsLine kw v =>
      caddyfile.Text kw = "tls" /\ areArgs kw [v] = true
  | noVerifyLine kw => caddyfile.Text kw = "tls_no_verify"
  | serversLine kw v => caddyfile.Text kw = "bootstrap_servers"
  | unknownLine kw =>
      ~ In (caddyfile.Text kw) directiveNames /\
      caddyfile.Text kw <> "{" /\ caddyfile.Text kw <> "}"
  end.

(** What one directive does to the handler, and the error it ends the
    parse with, if any. *)
Definition lineEffect (l : Directive) (h : KafkaHandler)
  : option Go.error * KafkaHandler :=
  match l with
  | topicLine _ v => (None, set_Topic (caddyfile.Text v) h)
  | saslLine _ a u p =>
      let h1 := set_SASLPassword (caddyfile.Text p)
                  (set_SASLUsername (caddyfile.Text u) h) in
      if String.eqb (caddyfile.Text a) "sha256"
      then (None, set_SASLAuth true (set_SASLAlgorithm SASLMethodSHA256 h1))
      else if String.eqb (caddyfile.Text a) "sha512"
      then (None, set_SASLAuth true (set_SASLAlgorithm SASLMethodSHA512 h1))
      else (Some (Go.Errorf ("unsupported SCRAM method: "
                               ++ caddyfile.Text a)%string), h1)
  | tlsLine _ v =>
      if String.eqb (caddyfile.Text v) "on" then (None, set_TLSEnabled true h)
      else if String.eqb (caddyfile.Text v) "off"
      then (None, set_TLSEnabled false h)
      else (Some (Go.Errorf "invalid value for tls"), h)
  | noVerifyLine _ => (None, set_TLSNoVerify true h)
  | serversLine _ v =>
      (None,
       set_BootstrapServers
         (Some (List.map Go.TrimSpace (Go.Split (caddyfile.Text v) ","%char)))
         h)
  | unknownLine kw =>
      (Some (Go.Errorf ("unsupported argument: " ++ caddyfile.Text kw)%string),
       h)
  end.

(** The directives applied in order, up to the first that fails. *)
Fixpoint applyLines (ls : list Directive) (h : KafkaHandler)
  : option Go.error * KafkaHandler :=
  match ls with
  | [] => (None, h)
  | l :: ls' =>
      match lineEffect l h with
      | (Some e, h1) => (Some e, h1)
      | (None, h1) => applyLines ls' h1
      end
  end.

(** The tokens [toks] are a block: a name, an opening brace on its line,
    well-formed directives, and a closing brace that ends the tokens or is
    followed by a token on another line. *)
Definition isBlock (toks : list caddyfile.Token)
           (name brace : caddyfile.Token) (ls : list Directive)
           (close : caddyfile.Token) (rest : list caddyfile.Token) : Prop :=
  toks = name :: brace :: List.flat_map lineTokens ls ++ close :: rest /\
  caddyfile.isNextOnNewLine name brace = false /\
  caddyfile.Text brace = "{" /\
  caddyfile.Text close = "}" /\
  match rest with
  | [] => True
  | t :: _ => caddyfile.isNextOnNewLine close t = true
  end /\
  Forall wellFormed ls.

(** The README's TLS and SASL example:
    [kafka {
       bootstrap_servers "localhost:9096"
       topic "caddy-events"
       tls on
       sasl_scram sha512 "sasl_user" "sasl_password"
     }] *)
Definition readmeLines : list Directive :=
  [ serversLine (tok 2 "bootstrap_servers") (qtok 2 "localhost:9096");
    topicLine (tok 3 "topic") (qtok 3 "caddy-events");
    tlsLine (tok 4 "tls") (tok 4 "on");
    saslLine (tok 5 "sasl_scram") (tok 5 "sha512") (qtok 5 "sasl_user")
             (qtok 5 "sasl_password") ].

Definition readmeBlock : list caddyfile.Token :=
  tok 1 "kafka" :: tok 1 "{" :: List.flat_map lineTokens readmeLines
      ++ [tok 6 "}"].

(** The value the last directive of some kind carries, if any directive of
    that kind occurs. *)
Fixpoint lastOf {A : Type} (pick : Directive -> option A)
         (ls : list Directive) : option A :=
  match ls with
  | [] => None
  | l :: ls' =>
      match lastOf pick ls' with
      | Some x => Some x
      | None => pick l
      end
  end.

(** The topic a [topic] directive names. *)
Definition topicOf (l : Directive) : option string :=
  match l with
  | topicLine _ v => Some (caddyfile.Text v)
  | _ => None
  end.

(** Whether a [tls] directive says [on]. *)
Definition tlsOf (l : Directive) : option bool :=
  match l with
  | tlsLine _ v => Some (String.eqb (caddyfile.Text v) "on")
  | _ => None
  end.

(** The servers a [bootstrap_servers] directive lists. *)
Definition serversOf (l : Directive) : option (Go.slice string) :=
  match l with
  | serversLine _ v =>
      Some (Some (List.map Go.TrimSpace
                    (Go.Split (caddyfile.Text v) ","%char)))
  | _ => None
  end.

(** [kafka {
       tls on
       topic "first"
       tls off
       topic "second"
     }] *)
Definition repeatedLines : list Directive :=
  [ tlsLine (tok 2 "tls") (tok 2 "on");
    topicLine (tok 3 "topic") (qtok 3 "first");
    tlsLine (tok 4 "tls") (tok 4 "off");
    topicLine (tok 5 "topic") (qtok 5 "second") ].

Definition repeatedBlock : list caddyfile.Token :=
  tok 1 "kafka" :: tok 1 "{" :: List.flat_map lineTokens repeatedLines
      ++ [tok 6 "}"].

(** * Properties *)

(** ** Validate *)

Lemma len_pos_iff (A : Type) (s : Go.slice A) :
  (0 <? Go.len s) = true <-> s <> None /\ s <> Some [].
Proof.
  destruct s as [[|x l]|]; simpl; split; intros H; try discriminate;
    try (split; congruence); try reflexivity.
  - destruct H as [_ H]. now elim H.
  - destruct H as [H _]. now elim H.
Qed.

Lemma Validate_firstFailure (h : KafkaHandler) :
  Validate h = firstFailure rules h.
Proof.
  unfold Validate, rules, firstFailure, hasServers, hasTopic, hasUsername,
    hasPassword, hasAlgorithm.
  destruct (BootstrapServers h) as [[|x l]|]; simpl; try reflexivity.
  destruct (String.eqb (Topic h) ""); simpl; try reflexivity.
  destruct (SASLAuth h); simpl; try reflexivity.
  destruct (String.eqb (SASLUsername h) ""); simpl; try reflexivity.
  destruct (String.eqb (SASLPassword h) ""); simpl; try reflexivity.
  destruct (String.eqb (SASLAlgorithm_ h) "sha256"); simpl; try reflexivity.
  destruct (String.eqb (SASLAlgorithm_ h) "sha512"); reflexivity.
Qed.

Lemma Validate_None_iff (h : KafkaHandler) :
  Validate h = None <-> invariants h.
Proof.
  unfold Validate, invariants.
  destruct (BootstrapServers h) as [[|x l]|]; simpl.
  - split; [discriminate | intros (_ & H & _); now elim H].
  - destruct (String.eqb_spec (Topic h) "") as [Ht|Ht].
    + split; [discriminate | intros (_ & _ & H & _); now elim H].
    + destruct (SASLAuth h).
      * destruct (String.eqb_spec (SASLUsername h) "") as [Hu|Hu].
        { split; [discriminate | intros (_ & _ & _ & H)].
          destruct (H eq_refl) as (H1 & _); now elim H1. }
        destruct (String.eqb_spec (SASLPassword h) "") as [Hp|Hp].
        { split; [discriminate | intros (_ & _ & _ & H)].
          destruct (H eq_refl) as (_ & H1 & _); now elim H1. }
        destruct (String.eqb_spec (SASLAlgorithm_ h) "sha256") as [Ha|Ha];
          destruct (String.eqb_spec (SASLAlgorithm_ h) "sha512") as [Hb|Hb];
          simpl;
          try (split; [intros _; repeat split; auto; discriminate | reflexivity]).
        split; [discriminate | intros (_ & _ & _ & H)].
        destruct (H eq_refl) as (_ & _ & [H1|H1]); contradiction.
      * split; [intros _; repeat split; auto; discriminate | reflexivity].
  - split; [discriminate | intros (H & _); now elim H].
Qed.

Lemma violations_zero_iff (h : KafkaHandler) :
  violations h = 0%nat <-> firstFailure rules h = None.
Proof.
  unfold violations, rules, firstFailure; simpl.
  destruct (hasServers h), (hasTopic h), (hasUsername h), (hasPassword h),
    (hasAlgorithm h); simpl; split; intros H; try discriminate; reflexivity.
Qed.

Lemma Validate_is_Errorf (h : KafkaHandler) (e : Go.error) :
  Validate h = Some e ->
  e = Go.Errorf "kafka bootstrap_servers missing" \/
  e = Go.Errorf "kafka topic missing" \/
  e = Go.Errorf "kafka missing sasl username" \/
  e = Go.Errorf "kafka invalid sasl algorithm".
Proof.
  unfold Validate.
  repeat match goal with
         | |- context [if ?b then _ else _] => destruct b
         end; intros H; inversion H; auto.
Qed.

(** C2.  [Validate] returns nil exactly for the Configurations that satisfy
    the invariants (bootstrap servers and topic non-empty and, with SASL
    enabled, username and password non-empty and the algorithm one of
    sha256 and sha512); a Configuration that violates none of the rules is
    one that satisfies them, and one that violates exactly one of them gets
    an error made by [fmt.Errorf]. *)
Theorem Validate_succeeds_exactly_on_invariants (h : KafkaHandler) :
  (Validate h = None <-> invariants h) /\
  (violations h = 0%nat <-> invariants h) /\
  (violations h = 1%nat -> exists msg, Validate h = Some (Go.Errorf msg)).
Proof.
  split; [apply Validate_None_iff|]. split.
  - rewrite violations_zero_iff, <- Validate_firstFailure.
    apply Validate_None_iff.
  - intros Hv. destruct (Validate h) as [e|] eqn:He.
    + destruct (Validate_is_Errorf h e He) as [-> | [-> | [-> | ->]]]; eauto.
    + rewrite Validate_firstFailure in He.
      apply violations_zero_iff in He. rewrite He in Hv. discriminate.
Qed.

(** C3.  [Validate] checks its rules in the order bootstrap servers, topic,
    SASL username, SASL password, SASL algorithm, and reports the first
    one that fails: whenever the rules before some rule hold and that rule
    does not, the error is that rule's, whatever the later rules say.  In
    particular a Configuration without bootstrap servers and without topic
    gets the bootstrap servers error. *)
Theorem Validate_first_failure_wins (h : KafkaHandler) :
  Validate h = firstFailure rules h /\
  (forall before r after,
      rules = before ++ r :: after ->
      Forall (fun q => fst q h = true) before ->
      fst r h = false ->
      Validate h = Some (snd r)) /\
  (Go.len (BootstrapServers h) = 0 -> Topic h = "" ->
   Validate h = Some (Go.Errorf "kafka bootstrap_servers missing")).
Proof.
  split; [apply Validate_firstFailure|]. split.
  - intros before r after Hr Hb Hf. rewrite Validate_firstFailure, Hr.
    clear Hr. induction Hb as [|[ok e] l Hq Hl IH]; simpl.
    + destruct r as [ok e]; simpl in *. now rewrite Hf.
    + simpl in Hq. now rewrite Hq.
  - intros Hl _. unfold Validate.
    destruct (BootstrapServers h) as [l|]; [|reflexivity].
    simpl in *. now rewrite Hl.
Qed.

(** C9, as stated, fails: a Configuration with SASL enabled, a username and
    no password that names no bootstrap server gets the bootstrap servers
    error, not "kafka missing sasl username". *)
Lemma Validate_missing_password_counterexample :
  SASLAuth noServersNoPassword = true /\
  SASLUsername noServersNoPassword <> "" /\
  SASLPassword noServersNoPassword = "" /\
  Validate noServersNoPassword
    = Some (Go.Errorf "kafka bootstrap_servers missing") /\
  Validate noServersNoPassword
    <> Some (Go.Errorf "kafka missing sasl username").
Proof.
  repeat split; try reflexivity; discriminate.
Qed.

(** C9, amended.  For every Configuration with bootstrap servers and a
    topic that has SASL enabled, a username and an empty password,
    [Validate] returns the error "kafka missing sasl username", which is
    also what it returns once the username is emptied too; and no error of
    [Validate], for any Configuration, mentions the password. *)
Theorem Validate_missing_password_message (h : KafkaHandler) :
  0 < Go.len (BootstrapServers h) ->
  Topic h <> "" ->
  SASLAuth h = true ->
  SASLUsername h <> "" ->
  SASLPassword h = "" ->
  Validate h = Some (Go.Errorf "kafka missing sasl username") /\
  Validate (set_SASLUsername "" h) = Validate h /\
  (forall h' e, Validate h' = Some e ->
                exists msg, e = Go.Errorf msg /\
                            Go.Contains msg "password" = false).
Proof.
  intros Hl Ht Ha Hu Hp.
  assert (Hv : Validate h = Some (Go.Errorf "kafka missing sasl username")).
  { unfold Validate. destruct (BootstrapServers h) as [[|x l]|];
      simpl in *; try lia.
    apply String.eqb_neq in Ht, Hu. now rewrite Ht, Ha, Hu, Hp. }
  split; [exact Hv|]. split.
  - rewrite Hv. unfold Validate. simpl.
    destruct (BootstrapServers h) as [[|x l]|]; simpl in *; try lia.
    apply String.eqb_neq in Ht. now rewrite Ht, Ha.
  - intros h' e He.
    destruct (Validate_is_Errorf h' e He) as [-> | [-> | [-> | ->]]];
      eexists; split; reflexivity.
Qed.

Lemma Validate_missing_password_message_witness :
  Validate (set_BootstrapServers (Some ["localhost:9092"]) noServersNoPassword)
    = Some (Go.Errorf "kafka missing sasl username").
Proof.
  apply (Validate_missing_password_message
           (set_BootstrapServers (Some ["localhost:9092"]) noServersNoPassword));
    simpl; try reflexivity; discriminate.
Defined.

(** ** Provision *)

(** C1 does not hold of the code.  The Configuration [bellUser] passes
    [Validate] and has SASL enabled with a username that the mechanism
    constructor rejects; on it [Provision] returns no error: it reaches
    [panic(err)] (module.go:76), whereas the other failure of the same
    block, an unrecognised algorithm (module.go:71), is returned as an
    error. *)
Lemma Provision_panics_on_rejected_username :
  Validate bellUser = None /\
  SASLAuth bellUser = true /\
  scramRejectingControls scram.SHA256 (SASLUsername bellUser)
                         (SASLPassword bellUser)
    = inr "prohibited character" /\
  fst (Provision scramRejectingControls {| ctxLogger := zapLogger |} bellUser)
    = Panics "prohibited character" /\
  ~ (exists e,
        fst (Provision scramRejectingControls {| ctxLogger := zapLogger |}
                       bellUser)
          = Returns (Some e)).
Proof.
  repeat split; try reflexivity.
  intros [e He]. discriminate He.
Qed.

(** The same defect at every input: with SASL enabled and one of the two
    recognised algorithms, whenever the construction of the SCRAM mechanism
    fails [Provision] panics with the construction error instead of
    returning it, and the transport it leaves behind carries no SASL
    mechanism. *)
Lemma Provision_mechanism_failure_panics
        (scramMechanism : scram.Algorithm -> string -> string ->
                          scram.mechanism + string)
        (ctx : Context) (h : KafkaHandler)
        (method : scram.Algorithm) (err : string) :
  SASLAuth h = true ->
  scramMethod (SASLAlgorithm_ h) = Some method ->
  scramMechanism method (SASLUsername h) (SASLPassword h) = inr err ->
  fst (Provision scramMechanism ctx h) = Panics err /\
  (forall e, fst (Provision scramMechanism ctx h) <> Returns e) /\
  (forall w t,
      writer (snd (Provision scramMechanism ctx h)) = Some w ->
      kafka.WTransport w = Some t ->
      kafka.SASL t = None).
Proof.
  intros Ha Hm He. unfold Provision. rewrite Ha, Hm, He. simpl.
  split; [reflexivity|]. split; [discriminate|].
  intros w t Hw Ht. inversion Hw; subst w. simpl in Ht.
  inversion Ht; subst t. reflexivity.
Qed.

(** ** Handle *)

(** C6.  For every event whose envelope [json.Marshal] serializes, [Handle]
    calls the producer once, with exactly one message: its key is the bytes
    of the event's identifier, its topic the configured topic, its time
    the event's timestamp and its value the serialized envelope, so that
    any decoder that inverts [json.Marshal] on this envelope reads from the
    value an envelope with the event's identifier, timestamp and data. *)
Theorem Handle_publishes_the_event
        (Event : Type) (CloudEventOf : Event -> CloudEvent)
        (jsonMarshal : CloudEvent -> list Byte.byte + string)
        (Ctx Producer : Type)
        (WriteMessages : option kafka.Writer -> Ctx -> list kafka.Message ->
                         Producer -> option string * Producer)
        (h : KafkaHandler) (ctx : Ctx) (e : Event) (p : Producer)
        (data : list Byte.byte) :
  jsonMarshal (CloudEventOf e) = inl data ->
  exists m : kafka.Message,
    Handle Event CloudEventOf jsonMarshal Ctx Producer WriteMessages h ctx e p
    = (match fst (WriteMessages (writer h) ctx [m] p) with
       | Some err =>
           Some (Go.Errorf ("failed to write event to Kafka: " ++ err)%string)
       | None => None
       end,
       snd (WriteMessages (writer h) ctx [m] p)) /\
    kafka.Key m = list_byte_of_string (ID (CloudEventOf e)) /\
    kafka.MTopic m = Topic h /\
    kafka.MTime m = Time (CloudEventOf e) /\
    kafka.Value m = data /\
    (forall jsonUnmarshal : list Byte.byte -> option CloudEvent,
        (forall b, jsonMarshal (CloudEventOf e) = inl b ->
                   jsonUnmarshal b = Some (CloudEventOf e)) ->
        exists env,
          jsonUnmarshal (kafka.Value m) = Some env /\
          ID env = ID (CloudEventOf e) /\
          Time env = Time (CloudEventOf e) /\
          Data env = Data (CloudEventOf e)).
Proof.
  intros Hd. exists (outbound Event CloudEventOf h e data).
  unfold Handle. rewrite Hd.
  destruct (WriteMessages (writer h) ctx
              [outbound Event CloudEventOf h e data] p) as [[err|] p1];
    simpl; repeat split; try reflexivity;
    intros dec Hdec; exists (CloudEventOf e); auto.
Qed.

Lemma Handle_publishes_the_event_witness :
  exists m : kafka.Message,
    Handle CloudEvent (fun ce => ce) marshalCertObtained unit
           (list kafka.Message) enqueue
           (set_Topic "events" newKafkaHandler) tt certObtained []
    = (None, [m]) /\
    kafka.Key m = list_byte_of_string "abc" /\
    kafka.MTopic m = "events" /\
    kafka.MTime m = kafka.Instant 1692036575984688502 /\
    exists env,
      unmarshalCertObtained (kafka.Value m) = Some env /\
      ID env = "abc" /\
      Time env = kafka.Instant 1692036575984688502 /\
      Data env = Data certObtained.
Proof.
  destruct (Handle_publishes_the_event
              CloudEvent (fun ce => ce) marshalCertObtained unit
              (list kafka.Message) enqueue
              (set_Topic "events" newKafkaHandler) tt certObtained []
              certObtainedJSON eq_refl)
    as (m & Hh & Hk & Ht & Hi & Hv & Hdec).
  exists m. repeat split; try assumption.
  apply (Hdec unmarshalCertObtained).
  intros b Hb. inversion Hb; subst b. reflexivity.
Defined.

(** ** The dispenser only moves forward *)

Lemma set_cursor_same (d : caddyfile.Dispenser) :
  caddyfile.set_cursor (caddyfile.cursor d) d = d.
Proof. destruct d; reflexivity. Qed.

Lemma forward_refl (d : caddyfile.Dispenser) : forward d d.
Proof. split; [reflexivity | lia]. Qed.

Lemma forward_trans (d1 d2 d3 : caddyfile.Dispenser) :
  forward d1 d2 -> forward d2 d3 -> forward d1 d3.
Proof. intros [H1 H2] [H3 H4]; split; [congruence | lia]. Qed.

Lemma forward_ntokens (d d' : caddyfile.Dispenser) :
  forward d d' -> caddyfile.ntokens d' = caddyfile.ntokens d.
Proof. intros [H _]. unfold caddyfile.ntokens. now rewrite H. Qed.

Lemma ntokens_nonneg (d : caddyfile.Dispenser) : 0 <= caddyfile.ntokens d.
Proof. unfold caddyfile.ntokens. lia. Qed.

Lemma Next_forward (d d' : caddyfile.Dispenser) (ok : bool) :
  caddyfile.Next d = (ok, d') ->
  forward d d' /\
  (ok = true -> caddyfile.cursor d < caddyfile.cursor d' /\
                caddyfile.cursor d < caddyfile.ntokens d).
Proof.
  unfold caddyfile.Next.
  destruct (Z.ltb_spec (caddyfile.cursor d) (caddyfile.ntokens d - 1))
    as [Hlt|Hge];
    intros Heq; inversion Heq; subst; clear Heq.
  - split; [split; simpl; [reflexivity | lia] | intros _; simpl; lia].
  - split; [apply forward_refl | discriminate].
Qed.

Lemma nextOnSameLine_forward (d d' : caddyfile.Dispenser) (ok : bool) :
  caddyfile.nextOnSameLine d = (ok, d') ->
  forward d d' /\
  (ok = true -> caddyfile.cursor d < caddyfile.cursor d' /\
                caddyfile.cursor d < caddyfile.ntokens d).
Proof.
  unfold caddyfile.nextOnSameLine. pose proof (ntokens_nonneg d) as Hn.
  destruct (Z.ltb_spec (caddyfile.cursor d) 0) as [Hneg|Hpos].
  { intros Heq; inversion Heq; subst; clear Heq.
    split; [split; simpl; [reflexivity | lia] | intros _; simpl; lia]. }
  destruct (Z.leb_spec (caddyfile.ntokens d - 1) (caddyfile.cursor d))
    as [Hlast|Hmore].
  { intros Heq; inversion Heq; subst. split; [apply forward_refl | discriminate]. }
  destruct (caddyfile.token_at d (caddyfile.cursor d)) as [curr|];
    [destruct (caddyfile.token_at d (caddyfile.cursor d + 1)) as [next|];
     [destruct (caddyfile.isNextOnNewLine curr next)|]|];
    simpl; intros Heq; inversion Heq; subst; clear Heq;
    try (split; [apply forward_refl | discriminate]).
  split; [split; simpl; [reflexivity | lia] | intros _; simpl; lia].
Qed.

Lemma NextArg_forward (d d' : caddyfile.Dispenser) (ok : bool) :
  caddyfile.NextArg d = (ok, d') -> forward d d'.
Proof.
  unfold caddyfile.NextArg.
  destruct (caddyfile.nextOnSameLine d) as [same d1] eqn:Hs.
  apply nextOnSameLine_forward in Hs. destruct Hs as [[Ht Hc] Hs].
  destruct same; simpl.
  - destruct (String.eqb (caddyfile.Val d1) "{");
      intros Heq; inversion Heq; subst; clear Heq.
    + specialize (Hs eq_refl). split; simpl; [assumption | lia].
    + split; assumption.
  - intros Heq; inversion Heq; subst. split; assumption.
Qed.

Lemma Args_forward (S : Type) (targets : list (string -> S -> S)) :
  forall (s s' : S) (d d' : caddyfile.Dispenser) (ok : bool),
    caddyfile.Args targets s d = (ok, s', d') -> forward d d'.
Proof.
  induction targets as [|t ts IH]; simpl; intros s s' d d' ok H.
  - inversion H; subst. apply forward_refl.
  - destruct (caddyfile.NextArg d) as [ok1 d1] eqn:Ha.
    apply NextArg_forward in Ha. destruct ok1; simpl in H.
    + eapply forward_trans; [exact Ha | eapply IH; exact H].
    + inversion H; subst. exact Ha.
Qed.

Lemma andNot_forward (b : bool) (d d' : caddyfile.Dispenser) (r : bool) :
  caddyfile.andNotNextOnSameLine b d = (r, d') ->
  forward d d' /\ caddyfile.nesting d' = caddyfile.nesting d.
Proof.
  unfold caddyfile.andNotNextOnSameLine. destruct b.
  - destruct (caddyfile.nextOnSameLine d) as [same d1] eqn:Hs.
    intros H; inversion H; subst; clear H.
    split; [apply (nextOnSameLine_forward _ _ _ Hs)|].
    revert Hs. unfold caddyfile.nextOnSameLine.
    repeat match goal with
           | |- context [if ?c then _ else _] => destruct c
           | |- context [match ?c with Some _ => _ | None => _ end] =>
               destruct c
           end; intros Hs; inversion Hs; reflexivity.
  - intros H; inversion H; subst. split; [apply forward_refl | reflexivity].
Qed.

Lemma NextBlock_forward (i : Z) (d d' : caddyfile.Dispenser) (ok : bool) :
  caddyfile.NextBlock i d = (ok, d') ->
  forward d d' /\
  (ok = true -> caddyfile.cursor d < caddyfile.cursor d' /\
                caddyfile.cursor d < caddyfile.ntokens d).
Proof.
  unfold caddyfile.NextBlock.
  destruct (i <? caddyfile.nesting d).
  - destruct (caddyfile.Next d) as [ok1 d1] eqn:Hn.
    apply Next_forward in Hn. destruct Hn as [Hf Hn].
    destruct ok1; simpl.
    + specialize (Hn eq_refl).
      destruct (caddyfile.andNotNextOnSameLine
                  (String.eqb (caddyfile.Val d1) "}") d1) as [closes d2] eqn:H2.
      apply andNot_forward in H2. destruct H2 as [[Ht2 Hc2] _].
      destruct closes.
      * intros H; inversion H; subst; clear H.
        destruct Hf as [Ht1 Hc1].
        split; [split; simpl; [congruence | lia] | intros _; simpl; lia].
      * destruct (caddyfile.andNotNextOnSameLine
                    (String.eqb (caddyfile.Val d2) "{") d2)
          as [opens d3] eqn:H3.
        apply andNot_forward in H3. destruct H3 as [[Ht3 Hc3] _].
        destruct Hf as [Ht1 Hc1].
        destruct opens; intros H; inversion H; subst; clear H;
          (split; [split; simpl; [congruence | lia] | intros _; simpl; lia]).
    + intros H; inversion H; subst. split; [assumption | discriminate].
  - destruct (caddyfile.nextOnSameLine d) as [same d1] eqn:Hs.
    apply nextOnSameLine_forward in Hs. destruct Hs as [[Ht1 Hc1] Hs].
    destruct same; simpl.
    + specialize (Hs eq_refl).
      destruct (String.eqb (caddyfile.Val d1) "{"); simpl.
      * destruct (caddyfile.Next d1) as [ok2 d2] eqn:Hn.
        apply Next_forward in Hn. destruct Hn as [[Ht2 Hc2] _].
        destruct (String.eqb (caddyfile.Val d2) "}");
          intros H; inversion H; subst; clear H;
          (split; [split; simpl; [congruence | lia]
                  | try discriminate; intros _; simpl; lia]).
      * intros H; inversion H; subst; clear H.
        split; [split; simpl; [assumption | lia] | discriminate].
    + intros H; inversion H; subst. split; [split; assumption | discriminate].
Qed.

Lemma directive_forward (h h' : KafkaHandler) (d d' : caddyfile.Dispenser)
      (r : option Go.error) :
  directive h d = (r, h', d') -> forward d d'.
Proof.
  unfold directive.
  destruct (String.eqb (caddyfile.Val d) "topic").
  { destruct (caddyfile.Args [set_Topic] h d) as [[ok h1] d1] eqn:Ha.
    apply Args_forward in Ha.
    destruct ok; simpl; intros H; inversion H; subst; exact Ha. }
  destruct (String.eqb (caddyfile.Val d) "sasl_scram").
  { destruct (caddyfile.Args _ ("", h) d) as [[ok s1] d1] eqn:Ha.
    apply Args_forward in Ha.
    destruct ok; simpl;
      repeat match goal with
             | |- context [if ?c then _ else _] => destruct c
             end; intros H; inversion H; subst; exact Ha. }
  destruct (String.eqb (caddyfile.Val d) "tls").
  { destruct (caddyfile.Args _ "" d) as [[ok s1] d1] eqn:Ha.
    apply Args_forward in Ha.
    destruct ok; simpl;
      repeat match goal with
             | |- context [if ?c then _ else _] => destruct c
             end; intros H; inversion H; subst; exact Ha. }
  destruct (String.eqb (caddyfile.Val d) "tls_no_verify").
  { intros H; inversion H; subst. apply forward_refl. }
  destruct (String.eqb (caddyfile.Val d) "bootstrap_servers").
  { destruct (caddyfile.Next d) as [ok d1] eqn:Hn.
    apply Next_forward in Hn. destruct Hn as [Hf _].
    destruct ok; simpl; intros H; inversion H; subst; exact Hf. }
  intros H; inversion H; subst. apply forward_refl.
Qed.

(** ** The loop of UnmarshalCaddyfile ends *)

Lemma blockLoop_enough (fuel : nat) :
  forall (h : KafkaHandler) (d : caddyfile.Dispenser),
    (Z.to_nat (caddyfile.ntokens d - caddyfile.cursor d) < fuel)%nat ->
    exists r, blockLoop fuel h d = Some r.
Proof.
  induction fuel as [|fuel IH]; intros h d Hm; [lia|]. simpl.
  destruct (caddyfile.NextBlock 0 d) as [more d1] eqn:Hb.
  apply NextBlock_forward in Hb. destruct Hb as [Hf1 Hb].
  destruct more; simpl; [|eauto].
  specialize (Hb eq_refl).
  destruct (directive h d1) as [[[e|] h1] d2] eqn:Hd; [eauto|].
  apply directive_forward in Hd.
  apply IH.
  pose proof (forward_ntokens _ _ (forward_trans _ _ _ Hf1 Hd)) as Hn.
  destruct Hd as [_ Hc]. lia.
Qed.

Lemma blockLoop_more_fuel (fuel : nat) :
  forall (h : KafkaHandler) (d : caddyfile.Dispenser) r (fuel' : nat),
    blockLoop fuel h d = Some r -> (fuel <= fuel')%nat ->
    blockLoop fuel' h d = Some r.
Proof.
  induction fuel as [|fuel IH]; intros h d r fuel' Hr Hle; [discriminate|].
  destruct fuel' as [|fuel']; [lia|]. simpl in *.
  destruct (caddyfile.NextBlock 0 d) as [more d1].
  destruct more; simpl in *; [|assumption].
  destruct (directive h d1) as [[[e|] h1] d2]; [assumption|].
  apply IH; [assumption | lia].
Qed.

Lemma blockLoop_rounds (fuel : nat) (h : KafkaHandler)
      (d : caddyfile.Dispenser) r :
  blockLoop fuel h d = Some r -> blockLoop (rounds d) h d = Some r.
Proof.
  intros Hr.
  destruct (blockLoop_enough (rounds d) h d) as [r' Hr'];
    [unfold rounds; lia|].
  destruct (Nat.le_ge_cases fuel (rounds d)) as [Hle|Hle].
  - apply (blockLoop_more_fuel _ _ _ _ _ Hr Hle).
  - pose proof (blockLoop_more_fuel _ _ _ _ _ Hr' Hle) as Hr2. congruence.
Qed.

(** [UnmarshalCaddyfile] returns on every handler and every dispenser: the
    rounds allowed to its loop always suffice. *)
Theorem UnmarshalCaddyfile_returns (h : KafkaHandler)
        (d : caddyfile.Dispenser) :
  exists r h' d', UnmarshalCaddyfile h d = Some (r, h', d').
Proof.
  unfold UnmarshalCaddyfile.
  destruct (caddyfile.Next d) as [ok d1]. destruct ok; simpl; [|eauto].
  destruct (blockLoop_enough (rounds d1) h d1) as [[[r h'] d'] Hr];
    [unfold rounds; lia | eauto].
Qed.

(** ** What the loop keeps and what it passes on *)

Lemma Args_preserves (S : Type) (P : S -> Prop)
      (targets : list (string -> S -> S)) :
  Forall (fun t => forall v s, P s -> P (t v s)) targets ->
  forall (s s' : S) (d d' : caddyfile.Dispenser) (ok : bool),
    P s -> caddyfile.Args targets s d = (ok, s', d') -> P s'.
Proof.
  induction 1 as [|t ts Ht Hts IH]; simpl; intros s s' d d' ok Hs Ha.
  - inversion Ha; subst; assumption.
  - destruct (caddyfile.NextArg d) as [ok1 d1]. destruct ok1; simpl in Ha.
    + eapply IH; [|exact Ha]. apply Ht, Hs.
    + inversion Ha; subst; assumption.
Qed.

Lemma directive_preserves (P : KafkaHandler -> Prop) :
  (forall v h, P h -> P (set_Topic v h)) ->
  (forall v h, P h -> P (set_SASLUsername v h)) ->
  (forall v h, P h -> P (set_SASLPassword v h)) ->
  (forall a h, a = SASLMethodSHA256 \/ a = SASLMethodSHA512 ->
               P h -> P (set_SASLAuth true (set_SASLAlgorithm a h))) ->
  (forall v h, P h -> P (set_TLSEnabled v h)) ->
  (forall h, P h -> P (set_TLSNoVerify true h)) ->
  (forall s h, P h ->
               P (set_BootstrapServers
                    (appendTrimmed Go.make (Go.Split s ","%char)) h)) ->
  forall h d r h' d', P h -> directive h d = (r, h', d') -> P h'.
Proof.
  intros Ptopic Puser Ppass Psasl Ptls Pnoverify Pservers h d r h' d' Ph.
  directive_cases h d.
  - destruct (caddyfile.Args [set_Topic] h d) as [[ok h1] d1] eqn:Ha.
    apply (Args_preserves _ P) in Ha; [|repeat constructor; auto|assumption].
    destruct ok; simpl; intros H; inversion H; subst; assumption.
  - destruct (caddyfile.Args _ ("", h) d) as [[ok s1] d1] eqn:Ha.
    apply (Args_preserves _ (fun s => P (snd s))) in Ha;
      [| repeat constructor; unfold store_mech, store_handler; simpl; auto
       | assumption].
    destruct ok; simpl;
      repeat match goal with
             | |- context [if ?c then _ else _] => destruct c
             end; intros H; inversion H; subst; auto.
  - destruct (caddyfile.Args _ "" d) as [[ok s1] d1].
    destruct ok; simpl;
      repeat match goal with
             | |- context [if ?c then _ else _] => destruct c
             end; intros H; inversion H; subst; auto.
  - intros H; inversion H; subst; auto.
  - destruct (caddyfile.Next d) as [ok d1].
    destruct ok; simpl; intros H; inversion H; subst; auto.
  - intros H; inversion H; subst; auto.
Qed.

Lemma blockLoop_preserves (P : KafkaHandler -> Prop) :
  (forall h d r h' d', P h -> directive h d = (r, h', d') -> P h') ->
  forall fuel h d r h' d',
    P h -> blockLoop fuel h d = Some (r, h', d') -> P h'.
Proof.
  intros Hstep fuel. induction fuel as [|fuel IH]; intros h d r h' d' Ph Hl;
    [discriminate|]. simpl in Hl.
  destruct (caddyfile.NextBlock 0 d) as [more d1].
  destruct more; simpl in Hl; [|inversion Hl; subst; assumption].
  destruct (directive h d1) as [[[e|] h1] d2] eqn:Hd.
  - inversion Hl; subst. eapply Hstep; eassumption.
  - eapply IH; [|exact Hl]. eapply Hstep; eassumption.
Qed.

Lemma UnmarshalCaddyfile_preserves (P : KafkaHandler -> Prop) :
  (forall h d r h' d', P h -> directive h d = (r, h', d') -> P h') ->
  forall h d r h' d',
    P h -> UnmarshalCaddyfile h d = Some (r, h', d') -> P h'.
Proof.
  intros Hstep h d r h' d' Ph. unfold UnmarshalCaddyfile.
  destruct (caddyfile.Next d) as [ok d1]. destruct ok; cbn [negb].
  - apply (blockLoop_preserves P Hstep); assumption.
  - intros H; inversion H; subst; assumption.
Qed.

(** An error that a directive returns, in whatever round of the loop, is
    the error [UnmarshalCaddyfile] returns, and the end of the block reached
    after any number of directives is its nil return. *)
Lemma dispatched_loop (h0 : KafkaHandler) (d0 : caddyfile.Dispenser)
      (h : KafkaHandler) (d : caddyfile.Dispenser) :
  dispatched h0 d0 h d ->
  forall fuel r,
    match directive h d with
    | (Some e, h1, d1) => Some (Some e, h1, d1)
    | (None, h1, d1) => blockLoop fuel h1 d1
    end = Some r ->
    exists fuel', blockLoop fuel' h0 d0 = Some r.
Proof.
  induction 1 as [d1 Hb | h d h1 d1 d2 Hd IH Hdir Hb]; intros fuel r Hr.
  - exists (S fuel). simpl. now rewrite Hb.
  - apply (IH (S fuel)). rewrite Hdir. simpl. now rewrite Hb.
Qed.

Lemma dispatched_error (h0 : KafkaHandler) (d00 d0 : caddyfile.Dispenser)
      (h : KafkaHandler) (d : caddyfile.Dispenser)
      (e : Go.error) (h1 : KafkaHandler) (d1 : caddyfile.Dispenser) :
  caddyfile.Next d00 = (true, d0) ->
  dispatched h0 d0 h d ->
  directive h d = (Some e, h1, d1) ->
  UnmarshalCaddyfile h0 d00 = Some (Some e, h1, d1).
Proof.
  intros Hn Hd He. unfold UnmarshalCaddyfile. rewrite Hn. cbn [negb].
  destruct (dispatched_loop _ _ _ _ Hd 0%nat (Some e, h1, d1)) as [fuel Hr].
  - now rewrite He.
  - apply (blockLoop_rounds _ _ _ _ Hr).
Qed.

(** ** The arguments of a line, as [d.Args] loads them *)

Lemma skipn_cons_nth (A : Type) (l : list A) :
  forall (k : nat) (t : A) (rest : list A),
    List.skipn k l = t :: rest ->
    nth_error l k = Some t /\ List.skipn (S k) l = rest /\
    (k < List.length l)%nat.
Proof.
  induction l as [|x l IH]; intros k t rest H.
  - destruct k; discriminate.
  - destruct k as [|k]; simpl in *.
    + inversion H; subst. repeat split. lia.
    + destruct (IH k t rest H) as (H1 & H2 & H3). repeat split; auto. lia.
Qed.

Lemma skipn_nil_length (A : Type) (l : list A) :
  forall k : nat, List.skipn k l = [] -> (List.length l <= k)%nat.
Proof.
  induction l as [|x l IH]; intros k H; simpl; [lia|].
  destruct k as [|k]; [discriminate|]. simpl in H. apply IH in H. lia.
Qed.

Lemma token_at_in_range (d : caddyfile.Dispenser) (i : Z) :
  0 <= i < caddyfile.ntokens d ->
  caddyfile.token_at d i = nth_error (caddyfile.tokens d) (Z.to_nat i) /\
  exists t, caddyfile.token_at d i = Some t.
Proof.
  intros Hi. unfold caddyfile.token_at.
  destruct (Z.ltb_spec i 0) as [H1|H1]; [lia|].
  destruct (Z.leb_spec (caddyfile.ntokens d) i) as [H2|H2]; [lia|]. simpl.
  split; [reflexivity|].
  destruct (nth_error (caddyfile.tokens d) (Z.to_nat i)) as [t|] eqn:Hn;
    [eauto|].
  apply nth_error_None in Hn. unfold caddyfile.ntokens in Hi. lia.
Qed.

Lemma Val_in_range (d : caddyfile.Dispenser) :
  caddyfile.Val d <> "" ->
  0 <= caddyfile.cursor d < caddyfile.ntokens d.
Proof.
  unfold caddyfile.Val, caddyfile.token_at. intros H.
  destruct (Z.ltb_spec (caddyfile.cursor d) 0) as [H1|H1];
    [now elim H|].
  destruct (Z.leb_spec (caddyfile.ntokens d) (caddyfile.cursor d)) as [H2|H2];
    [now elim H | lia].
Qed.

Lemma NextArg_lineArgs (d : caddyfile.Dispenser) :
  0 <= caddyfile.cursor d < caddyfile.ntokens d ->
  match lineArgs d with
  | [] => caddyfile.NextArg d = (false, d)
  | a :: l =>
      caddyfile.NextArg d
        = (true, caddyfile.set_cursor (caddyfile.cursor d + 1) d) /\
      caddyfile.Val (caddyfile.set_cursor (caddyfile.cursor d + 1) d) = a /\
      lineArgs (caddyfile.set_cursor (caddyfile.cursor d + 1) d) = l /\
      caddyfile.cursor d + 1 < caddyfile.ntokens d
  end.
Proof.
  intros Hc. destruct (token_at_in_range d _ Hc) as [Hnth [curr Hcurr]].
  unfold lineArgs, caddyfile.NextArg, caddyfile.nextOnSameLine.
  rewrite Hcurr.
  destruct (Z.ltb_spec (caddyfile.cursor d) 0) as [H1|_]; [lia|].
  destruct (List.skipn (S (Z.to_nat (caddyfile.cursor d))) (caddyfile.tokens d))
    as [|t rest] eqn:Hs.
  - apply skipn_nil_length in Hs. simpl.
    destruct (Z.leb_spec (caddyfile.ntokens d - 1) (caddyfile.cursor d))
      as [_|H2]; [reflexivity|].
    unfold caddyfile.ntokens in H2. lia.
  - apply skipn_cons_nth in Hs. destruct Hs as (Ht & Hrest & Hlen).
    assert (Hc1 : 0 <= caddyfile.cursor d + 1 < caddyfile.ntokens d)
      by (unfold caddyfile.ntokens; lia).
    assert (Hz : Z.to_nat (caddyfile.cursor d + 1)
                 = S (Z.to_nat (caddyfile.cursor d))) by lia.
    destruct (token_at_in_range d _ Hc1) as [Hnth1 _].
    rewrite Hz, Ht in Hnth1.
    destruct (Z.leb_spec (caddyfile.ntokens d - 1) (caddyfile.cursor d))
      as [H2|_]; [lia|].
    rewrite Hnth1. simpl.
    assert (Hval : caddyfile.Val
                     (caddyfile.set_cursor (caddyfile.cursor d + 1) d)
                   = caddyfile.Text t).
    { unfold caddyfile.Val. simpl.
      change (caddyfile.token_at
                (caddyfile.set_cursor (caddyfile.cursor d + 1) d)
                (caddyfile.cursor d + 1))
        with (caddyfile.token_at d (caddyfile.cursor d + 1)).
      now rewrite Hnth1. }
    assert (Hla : lineArgs (caddyfile.set_cursor (caddyfile.cursor d + 1) d)
                  = List.map caddyfile.Text (argsAfter t rest)).
    { unfold lineArgs.
      change (caddyfile.token_at
                (caddyfile.set_cursor (caddyfile.cursor d + 1) d)
                (caddyfile.cursor
                   (caddyfile.set_cursor (caddyfile.cursor d + 1) d)))
        with (caddyfile.token_at d (caddyfile.cursor d + 1)).
      rewrite Hnth1.
      change (caddyfile.cursor
                (caddyfile.set_cursor (caddyfile.cursor d + 1) d))
        with (caddyfile.cursor d + 1).
      change (caddyfile.tokens
                (caddyfile.set_cursor (caddyfile.cursor d + 1) d))
        with (caddyfile.tokens d).
      rewrite Hz, Hrest. reflexivity. }
    cbn [argsAfter].
    destruct (caddyfile.isNextOnNewLine curr t); cbn [negb List.map];
      [reflexivity|].
    rewrite Hval.
    destruct (String.eqb (caddyfile.Text t) "{"); cbn [negb List.map].
    + replace (caddyfile.cursor
                 (caddyfile.set_cursor (caddyfile.cursor d + 1) d) - 1)
        with (caddyfile.cursor d) by (simpl; lia).
      destruct d; reflexivity.
    + repeat split; try assumption; try lia.
Qed.

Lemma Args_lineArgs (St : Type) (targets : list (string -> St -> St)) :
  forall (s : St) (d : caddyfile.Dispenser),
    0 <= caddyfile.cursor d < caddyfile.ntokens d ->
    caddyfile.Args targets s d
    = ((List.length targets <=? List.length (lineArgs d))%nat,
       assign targets (lineArgs d) s,
       caddyfile.set_cursor
         (caddyfile.cursor d
          + Z.of_nat (Nat.min (List.length targets) (List.length (lineArgs d))))
         d).
Proof.
  induction targets as [|t ts IH]; intros s d Hc; simpl.
  - rewrite Z.add_0_r, set_cursor_same. reflexivity.
  - pose proof (NextArg_lineArgs d Hc) as Ha.
    destruct (lineArgs d) as [|a l].
    + rewrite Ha. simpl. rewrite Z.add_0_r, set_cursor_same. reflexivity.
    + destruct Ha as (Ha & Hv & Hl & Hn). rewrite Ha. cbn [negb].
      rewrite Hv, IH by (simpl; unfold caddyfile.ntokens in *; simpl; lia).
      rewrite Hl. simpl List.length.
      change (S (List.length ts) <=? S (List.length l))%nat
        with (List.length ts <=? List.length l)%nat.
      f_equal. unfold caddyfile.set_cursor. simpl. f_equal. lia.
Qed.

(** ** The sasl_scram directive *)

Lemma directive_sasl_scram (h : KafkaHandler) (d : caddyfile.Dispenser) :
  caddyfile.Val d = "sasl_scram" ->
  directive h d
  = (let s1 := assign [store_mech; store_handler set_SASLUsername;
                       store_handler set_SASLPassword] (lineArgs d) ("", h) in
     let d1 := caddyfile.set_cursor
                 (caddyfile.cursor d
                  + Z.of_nat (Nat.min 3 (List.length (lineArgs d)))) d in
     if negb (3 <=? List.length (lineArgs d))%nat
     then (Some (caddyfile.ArgErr d1), snd s1, d1)
     else if String.eqb (fst s1) "sha256"
     then (None, set_SASLAuth true (set_SASLAlgorithm SASLMethodSHA256 (snd s1)),
           d1)
     else if String.eqb (fst s1) "sha512"
     then (None, set_SASLAuth true (set_SASLAlgorithm SASLMethodSHA512 (snd s1)),
           d1)
     else (Some (Go.Errorf ("unsupported SCRAM method: " ++ fst s1)%string),
           snd s1, d1)).
Proof.
  intros Hv.
  assert (Hc : 0 <= caddyfile.cursor d < caddyfile.ntokens d)
    by (apply Val_in_range; rewrite Hv; discriminate).
  unfold directive. rewrite Hv. cbn [String.eqb Ascii.eqb Bool.eqb].
  rewrite Args_lineArgs by assumption. reflexivity.
Qed.

(** C4.  At a [sasl_scram] directive whose line carries the arguments
    algorithm, username and password: when the algorithm token is exactly
    sha256 or sha512 the handler comes out with SASL enabled and with that
    algorithm, username and password (its other fields untouched); any
    other algorithm token is the error "unsupported SCRAM method"; fewer
    than three arguments on the line (no password, or no username) is the
    dispenser's argument error; and such an error, in whatever round of
    the loop the directive is met, is the error [UnmarshalCaddyfile]
    returns. *)
Theorem sasl_scram_directive (h : KafkaHandler) (d : caddyfile.Dispenser) :
  caddyfile.Val d = "sasl_scram" ->
  (forall a u p rest,
      lineArgs d = a :: u :: p :: rest ->
      a = "sha256" \/ a = "sha512" ->
      directive h d
      = (None,
         set_SASLAuth true
           (set_SASLAlgorithm a (set_SASLPassword p (set_SASLUsername u h))),
         caddyfile.set_cursor (caddyfile.cursor d + 3) d)) /\
  (forall a u p rest,
      lineArgs d = a :: u :: p :: rest ->
      a <> "sha256" -> a <> "sha512" ->
      exists h1 d1,
        directive h d
        = (Some (Go.Errorf ("unsupported SCRAM method: " ++ a)%string), h1, d1) /\
        SASLAuth h1 = SASLAuth h /\ SASLAlgorithm_ h1 = SASLAlgorithm_ h) /\
  ((List.length (lineArgs d) < 3)%nat ->
   exists h1 d1,
     directive h d = (Some (caddyfile.ArgErr d1), h1, d1) /\
     SASLAuth h1 = SASLAuth h /\ SASLAlgorithm_ h1 = SASLAlgorithm_ h) /\
  (forall h0 d00 d0 e h1 d1,
      caddyfile.Next d00 = (true, d0) ->
      dispatched h0 d0 h d ->
      directive h d = (Some e, h1, d1) ->
      UnmarshalCaddyfile h0 d00 = Some (Some e, h1, d1)).
Proof.
  intros Hv. pose proof (directive_sasl_scram h d Hv) as Hd.
  repeat split.
  - intros a u p rest Hl Ha. rewrite Hd, Hl. simpl.
    destruct Ha as [-> | ->]; reflexivity.
  - intros a u p rest Hl Ha Hb. rewrite Hd, Hl. simpl.
    apply String.eqb_neq in Ha, Hb. rewrite Ha, Hb.
    do 2 eexists. repeat split.
  - intros Hlen. rewrite Hd.
    destruct (lineArgs d) as [|a [|u [|p rest]]]; simpl in *; try lia;
      do 2 eexists; repeat split.
  - intros h0 d00 d0 e h1 d1. apply dispatched_error.
Qed.

Lemma sasl_scram_directive_witness :
  exists h1 d1,
    directive newKafkaHandler (inBlockAt saslBlock 2) = (None, h1, d1) /\
    SASLAuth h1 = true /\ SASLAlgorithm_ h1 = "sha512" /\
    SASLUsername h1 = "u" /\ SASLPassword h1 = "p".
Proof.
  destruct (sasl_scram_directive newKafkaHandler (inBlockAt saslBlock 2)
                                 eq_refl) as (Hok & _).
  do 2 eexists. split.
  - apply (Hok "sha512" "u" "p" []); [reflexivity | right; reflexivity].
  - repeat split.
Defined.

(** The block [sasl_scram sha512 "u" "p"] parses to a handler with SASL
    enabled, and the same block without the password is a parse error. *)
Example UnmarshalCaddyfile_saslBlock :
  (exists h1 d1,
      UnmarshalCaddyfile newKafkaHandler (caddyfile.NewDispenser saslBlock)
      = Some (None, h1, d1) /\
      SASLAuth h1 = true /\ SASLAlgorithm_ h1 = "sha512" /\
      SASLUsername h1 = "u" /\ SASLPassword h1 = "p") /\
  (exists h1 d1,
      UnmarshalCaddyfile newKafkaHandler
                         (caddyfile.NewDispenser saslNoPasswordBlock)
      = Some (Some (Go.WrapErr
                      "wrong argument count or unexpected line ending after 'u'"
                      "Caddyfile" 2), h1, d1)).
Proof.
  split; do 2 eexists; [split; [vm_compute; reflexivity | repeat split]
                       | vm_compute; reflexivity].
Qed.

(** ** Go strings: Split and TrimSpace *)

Lemma sapp_assoc (a b c : string) :
  ((a ++ b) ++ c = a ++ (b ++ c))%string.
Proof. induction a as [|x a IH]; simpl; [reflexivity | now rewrite IH]. Qed.

Lemma sapp_nil_r (a : string) : (a ++ "" = a)%string.
Proof. induction a as [|x a IH]; simpl; [reflexivity | now rewrite IH]. Qed.

Lemma slength_app (a b : string) :
  String.length (a ++ b) = (String.length a + String.length b)%nat.
Proof. induction a as [|x a IH]; simpl; [reflexivity | now rewrite IH]. Qed.

Lemma list_ascii_app (a b : string) :
  list_ascii_of_string (a ++ b)
  = (list_ascii_of_string a ++ list_ascii_of_string b)%list.
Proof. induction a as [|x a IH]; simpl; [reflexivity | now rewrite IH]. Qed.

Lemma string_of_app (l1 l2 : list ascii) :
  string_of_list_ascii (l1 ++ l2)
  = (string_of_list_ascii l1 ++ string_of_list_ascii l2)%string.
Proof. induction l1 as [|x l1 IH]; simpl; [reflexivity | now rewrite IH]. Qed.

Lemma rev_app (a b : string) : Go.rev (a ++ b) = (Go.rev b ++ Go.rev a)%string.
Proof.
  unfold Go.rev. now rewrite list_ascii_app, List.rev_app_distr, string_of_app.
Qed.

Lemma rev_rev (s : string) : Go.rev (Go.rev s) = s.
Proof.
  unfold Go.rev.
  now rewrite list_ascii_of_string_of_list_ascii, List.rev_involutive,
    string_of_list_ascii_of_string.
Qed.

Lemma slength_list (s : string) :
  String.length s = List.length (list_ascii_of_string s).
Proof. induction s as [|x s IH]; simpl; [reflexivity | now rewrite IH]. Qed.

Lemma rev_length (s : string) : String.length (Go.rev s) = String.length s.
Proof.
  unfold Go.rev.
  now rewrite !slength_list, list_ascii_of_string_of_list_ascii,
    List.length_rev.
Qed.

Lemma CutPrefix_Some (p : string) :
  forall s r : string, Go.CutPrefix s p = Some r <-> s = (p ++ r)%string.
Proof.
  induction p as [|a p IH]; intros s r; simpl.
  - split; intros H; [now inversion H | now subst].
  - destruct s as [|b s]; [split; discriminate|].
    destruct (Ascii.eqb_spec a b) as [->|Hab].
    + rewrite IH. split; intros H; [now subst | now inversion H].
    + split; [discriminate | intros H; inversion H; congruence].
Qed.

Lemma cutSpace_Some (sps : list string) (s r : string) :
  Go.cutSpace sps s = Some r -> exists p, In p sps /\ s = (p ++ r)%string.
Proof.
  induction sps as [|p sps IH]; simpl; [discriminate|].
  destruct (Go.CutPrefix s p) as [r'|] eqn:Hp.
  - intros H; inversion H; subst. apply CutPrefix_Some in Hp. eauto.
  - intros H. destruct (IH H) as (q & Hq & Hs). eauto.
Qed.

Lemma cutSpace_None (sps : list string) (s : string) :
  Go.cutSpace sps s = None ->
  forall p r, In p sps -> s <> (p ++ r)%string.
Proof.
  induction sps as [|q sps IH]; simpl; intros H p r Hin; [contradiction|].
  destruct (Go.CutPrefix s q) as [r'|] eqn:Hq; [discriminate|].
  destruct Hin as [->|Hin]; [|now apply IH].
  intros Hs. apply CutPrefix_Some in Hs. congruence.
Qed.

Lemma cutSpace_empty (sps : list string) :
  Forall (fun p => p <> "") sps -> Go.cutSpace sps "" = None.
Proof.
  induction 1 as [|p sps Hp _ IH]; simpl; [reflexivity|].
  destruct p; [now elim Hp | exact IH].
Qed.

Lemma trimLeft_spec (sps : list string) :
  Forall (fun p => p <> "") sps ->
  forall (n : nat) (s : string),
    (String.length s <= n)%nat ->
    exists l,
      s = (l ++ Go.trimLeft sps n s)%string /\ spaceRun sps l /\
      Go.cutSpace sps (Go.trimLeft sps n s) = None.
Proof.
  intros Hne n. induction n as [|n IH]; intros s Hlen; simpl.
  - destruct s; [|simpl in Hlen; lia].
    exists "". repeat split; [constructor | now apply cutSpace_empty].
  - destruct (Go.cutSpace sps s) as [r|] eqn:Hc.
    + destruct (cutSpace_Some _ _ _ Hc) as (p & Hp & ->).
      assert (Hpne : p <> "")
        by (rewrite Forall_forall in Hne; now apply Hne).
      destruct (IH r) as (l & Hl & Hrun & Hnone).
      { rewrite slength_app in Hlen. destruct p; [now elim Hpne|].
        simpl in Hlen. lia. }
      exists (p ++ l)%string. rewrite sapp_assoc, <- Hl.
      repeat split; [|assumption].
      apply spaceRun_app; [now apply spaceRun_one | assumption].
    + exists "". repeat split; [constructor | assumption].
Qed.

Lemma spaceRun_rev (sps : list string) (s : string) :
  spaceRun (List.map Go.rev sps) s -> spaceRun sps (Go.rev s).
Proof.
  induction 1 as [|p Hp|a b _ IHa _ IHb].
  - constructor.
  - apply in_map_iff in Hp. destruct Hp as (q & <- & Hq).
    rewrite rev_rev. now apply spaceRun_one.
  - rewrite rev_app. now apply spaceRun_app.
Qed.

Lemma spaces_nonempty : Forall (fun p => p <> "") Go.spaces.
Proof. unfold Go.spaces; simpl. repeat constructor; discriminate. Qed.

Lemma rev_spaces_nonempty :
  Forall (fun p => p <> "") (List.map Go.rev Go.spaces).
Proof. unfold Go.spaces; simpl. repeat constructor; discriminate. Qed.

(** [TrimSpace] takes a run of white space off each end and leaves a string
    that neither starts nor ends with white space. *)
Lemma TrimSpace_spec (s : string) :
  exists l r,
    s = (l ++ Go.TrimSpace s ++ r)%string /\
    spaceRun Go.spaces l /\ spaceRun Go.spaces r /\
    (forall sp x, In sp Go.spaces -> Go.TrimSpace s <> (sp ++ x)%string) /\
    (forall sp x, In sp Go.spaces -> Go.TrimSpace s <> (x ++ sp)%string).
Proof.
  unfold Go.TrimSpace, Go.TrimRight, Go.TrimLeft.
  destruct (trimLeft_spec Go.spaces spaces_nonempty (String.length s) s
                          (le_n _)) as (l & Hl & Hlrun & Hlnone).
  set (u := Go.trimLeft Go.spaces (String.length s) s) in *.
  destruct (trimLeft_spec (List.map Go.rev Go.spaces) rev_spaces_nonempty
                          (String.length u) (Go.rev u))
    as (l' & Hr & Hrrun & Hrnone); [rewrite rev_length; lia|].
  set (t := Go.trimLeft (List.map Go.rev Go.spaces) (String.length u)
                        (Go.rev u)) in *.
  assert (Hu : u = (Go.rev t ++ Go.rev l')%string)
    by (rewrite <- rev_app, <- Hr, rev_rev; reflexivity).
  exists l, (Go.rev l'). repeat split.
  - now rewrite <- Hu.
  - assumption.
  - now apply spaceRun_rev.
  - intros sp x Hsp Ht.
    apply (cutSpace_None _ _ Hlnone sp (x ++ Go.rev l')%string Hsp).
    now rewrite Hu, Ht, sapp_assoc.
  - intros sp x Hsp Ht.
    apply (cutSpace_None _ _ Hrnone (Go.rev sp) (Go.rev x)).
    + now apply in_map.
    + rewrite <- rev_app, <- Ht, rev_rev. reflexivity.
Qed.

Lemma Split_nonempty (sep : ascii) (s : string) : Go.Split s sep <> [].
Proof.
  induction s as [|c s IH]; simpl; [discriminate|].
  destruct (Ascii.eqb c sep); [discriminate|].
  destruct (Go.Split s sep); discriminate.
Qed.

Lemma Join_Split (sep : ascii) (s : string) :
  Go.Join (Go.Split s sep) sep = s.
Proof.
  induction s as [|c s IH]; simpl; [reflexivity|].
  destruct (Ascii.eqb_spec c sep) as [->|Hc].
  - pose proof (Split_nonempty sep s) as Hne.
    destruct (Go.Split s sep) as [|p ps]; [now elim Hne|].
    simpl in *. now rewrite IH.
  - destruct (Go.Split s sep) as [|p [|q ps]]; simpl in *;
      now rewrite <- IH.
Qed.

Lemma Split_no_sep (sep : ascii) (s : string) :
  Forall (fun p => Go.Contains p (String sep "") = false) (Go.Split s sep).
Proof.
  induction s as [|c s IH]; simpl.
  - repeat constructor.
  - destruct (Ascii.eqb_spec c sep) as [->|Hc].
    + constructor; [reflexivity | assumption].
    + destruct (Go.Split s sep) as [|p ps].
      * repeat constructor. simpl.
        destruct (Ascii.eqb_spec sep c) as [Heq|_]; [now elim Hc|reflexivity].
      * inversion IH; subst. constructor; [|assumption]. simpl.
        destruct (Ascii.eqb_spec sep c) as [Heq|_]; [now elim Hc|assumption].
Qed.

Lemma Split_piece (sep : ascii) (p : string) :
  Go.Contains p (String sep "") = false ->
  Go.Split p sep = [p] /\
  forall rest, Go.Split (p ++ String sep rest) sep = p :: Go.Split rest sep.
Proof.
  induction p as [|c p IH]; intros Hp.
  - split; [reflexivity|]. intros rest. simpl. now rewrite Ascii.eqb_refl.
  - simpl in Hp. destruct (Ascii.eqb_spec sep c) as [Heq|Hne].
    + destruct p; discriminate.
    + destruct (IH Hp) as [H1 H2]. simpl.
      destruct (Ascii.eqb_spec c sep) as [Heq|_]; [now elim Hne|].
      split; [now rewrite H1 | intros rest; now rewrite H2].
Qed.

(** The fields between the separators are the only way to cut a string
    into separator-free pieces. *)
Lemma Split_Join (sep : ascii) (l : list string) :
  l <> [] ->
  Forall (fun p => Go.Contains p (String sep "") = false) l ->
  Go.Split (Go.Join l sep) sep = l.
Proof.
  intros Hne Hl. induction Hl as [|p ps Hp Hps IH]; [now elim Hne|].
  destruct (Split_piece sep p Hp) as [H1 H2].
  destruct ps as [|q ps]; [exact H1|].
  change (Go.Join (p :: q :: ps) sep)
    with (p ++ String sep (Go.Join (q :: ps) sep))%string.
  rewrite H2, IH; [reflexivity | discriminate].
Qed.

Lemma appendTrimmed_map (items acc : list string) :
  appendTrimmed (Some acc) items
  = Some (acc ++ List.map Go.TrimSpace items).
Proof.
  unfold appendTrimmed. revert acc.
  induction items as [|x items IH]; intros acc; simpl.
  - now rewrite app_nil_r.
  - rewrite IH, <- app_assoc. reflexivity.
Qed.

(** ** The bootstrap_servers directive *)

Lemma directive_bootstrap_servers (h : KafkaHandler)
      (d : caddyfile.Dispenser) (t : caddyfile.Token) :
  caddyfile.Val d = "bootstrap_servers" ->
  caddyfile.token_at d (caddyfile.cursor d + 1) = Some t ->
  directive h d
  = (None,
     set_BootstrapServers
       (Some (List.map Go.TrimSpace (Go.Split (caddyfile.Text t) ","%char))) h,
     caddyfile.set_cursor (caddyfile.cursor d + 1) d).
Proof.
  intros Hv Ht.
  assert (Hn : caddyfile.Next d
               = (true, caddyfile.set_cursor (caddyfile.cursor d + 1) d)).
  { unfold caddyfile.Next. unfold caddyfile.token_at in Ht.
    destruct (Z.ltb_spec (caddyfile.cursor d) (caddyfile.ntokens d - 1))
      as [_|Hge]; [reflexivity|].
    destruct (Z.leb_spec (caddyfile.ntokens d) (caddyfile.cursor d + 1))
      as [_|Hlt]; [|lia].
    rewrite orb_true_r in Ht. discriminate. }
  assert (Hval : caddyfile.Val (caddyfile.set_cursor (caddyfile.cursor d + 1) d)
                 = caddyfile.Text t).
  { unfold caddyfile.Val.
    change (caddyfile.token_at
              (caddyfile.set_cursor (caddyfile.cursor d + 1) d)
              (caddyfile.cursor
                 (caddyfile.set_cursor (caddyfile.cursor d + 1) d)))
      with (caddyfile.token_at d (caddyfile.cursor d + 1)).
    now rewrite Ht. }
  unfold directive. rewrite Hv. cbn [String.eqb Ascii.eqb Bool.eqb].
  rewrite Hn. cbn [negb]. rewrite Hval.
  unfold Go.make. rewrite appendTrimmed_map. reflexivity.
Qed.

(** C5.  At a [bootstrap_servers] directive the text of the token that
    follows is split on the commas and every field is trimmed of its
    surrounding white space; the fields come in the order of the text (they
    are comma-free and, joined by commas again, give the text back); what is
    trimmed off a field is white space only, and what remains neither
    starts nor ends with white space.  So [ a:1 , b:2 ] gives the servers
    [a:1] and [b:2]. *)
Theorem bootstrap_servers_directive (h : KafkaHandler)
        (d : caddyfile.Dispenser) (t : caddyfile.Token) :
  caddyfile.Val d = "bootstrap_servers" ->
  caddyfile.token_at d (caddyfile.cursor d + 1) = Some t ->
  exists fields : list string,
    directive h d
    = (None, set_BootstrapServers (Some (List.map Go.TrimSpace fields)) h,
       caddyfile.set_cursor (caddyfile.cursor d + 1) d) /\
    fields = Go.Split (caddyfile.Text t) ","%char /\
    Go.Join fields ","%char = caddyfile.Text t /\
    Forall (fun f => Go.Contains f "," = false) fields /\
    (forall others,
        others <> [] ->
        Forall (fun f => Go.Contains f "," = false) others ->
        Go.Join others ","%char = caddyfile.Text t -> others = fields) /\
    (forall f,
        exists l r,
          f = (l ++ Go.TrimSpace f ++ r)%string /\
          spaceRun Go.spaces l /\ spaceRun Go.spaces r /\
          (forall sp x, In sp Go.spaces -> Go.TrimSpace f <> (sp ++ x)%string) /\
          (forall sp x, In sp Go.spaces -> Go.TrimSpace f <> (x ++ sp)%string)) /\
    List.map Go.TrimSpace (Go.Split " a:1 , b:2 " ","%char) = ["a:1"; "b:2"].
Proof.
  intros Hv Ht. exists (Go.Split (caddyfile.Text t) ","%char).
  split; [now apply directive_bootstrap_servers|].
  split; [reflexivity|].
  split; [apply Join_Split|].
  split; [apply Split_no_sep|].
  split; [|split; [apply TrimSpace_spec | reflexivity]].
  intros others Hne Hall Hj. rewrite <- Hj. symmetry.
  now apply Split_Join.
Qed.

Lemma bootstrap_servers_directive_witness :
  directive newKafkaHandler (inBlockAt twoServersBlock 2)
  = (None, set_BootstrapServers (Some ["a:1"; "b:2"]) newKafkaHandler,
     inBlockAt twoServersBlock 3).
Proof.
  destruct (bootstrap_servers_directive
              newKafkaHandler (inBlockAt twoServersBlock 2)
              (qtok 2 " a:1 , b:2 ") eq_refl eq_refl)
    as (fields & Hd & -> & _).
  exact Hd.
Defined.

Lemma servers_kept (h : KafkaHandler) (d : caddyfile.Dispenser)
      (r : option Go.error) (h' : KafkaHandler) (d' : caddyfile.Dispenser) :
  0 < Go.len (BootstrapServers h) ->
  directive h d = (r, h', d') ->
  0 < Go.len (BootstrapServers h').
Proof.
  apply (directive_preserves (fun h => 0 < Go.len (BootstrapServers h)));
    try (intros; assumption).
  intros s h1 _. unfold Go.make. rewrite appendTrimmed_map. simpl.
  pose proof (Split_nonempty ","%char s) as Hne.
  destruct (Go.Split s ","%char); [now elim Hne | simpl; lia].
Qed.

(** C8.  At a [bootstrap_servers] directive followed by a token, whatever
    its text, the handler comes out with at least one bootstrap server, and
    keeps at least one through the rest of the loop, so [Validate] does not
    report the servers missing; for the empty text the list is the single
    empty address, which [Validate] accepts once the topic is set and SASL
    is off. *)
Theorem bootstrap_servers_never_empty (h : KafkaHandler)
        (d : caddyfile.Dispenser) (t : caddyfile.Token) :
  caddyfile.Val d = "bootstrap_servers" ->
  caddyfile.token_at d (caddyfile.cursor d + 1) = Some t ->
  exists h1 d1,
    directive h d = (None, h1, d1) /\
    (List.length (Go.Split (caddyfile.Text t) ","%char) >= 1)%nat /\
    0 < Go.len (BootstrapServers h1) /\
    (forall fuel r h2 d2,
        blockLoop fuel h1 d1 = Some (r, h2, d2) ->
        0 < Go.len (BootstrapServers h2)) /\
    Validate h1 <> Some (Go.Errorf "kafka bootstrap_servers missing") /\
    (caddyfile.Text t = "" ->
     BootstrapServers h1 = Some [""] /\
     (Topic h <> "" -> SASLAuth h = false -> Validate h1 = None)).
Proof.
  intros Hv Ht. do 2 eexists.
  split; [exact (directive_bootstrap_servers h d t Hv Ht)|].
  pose proof (Split_nonempty ","%char (caddyfile.Text t)) as Hne.
  assert (Hlen : (List.length (Go.Split (caddyfile.Text t) ","%char) >= 1)%nat)
    by (destruct (Go.Split (caddyfile.Text t) ","%char);
        [now elim Hne | simpl; lia]).
  assert (Hpos : 0 < Go.len (BootstrapServers
                               (set_BootstrapServers
                                  (Some (List.map Go.TrimSpace
                                           (Go.Split (caddyfile.Text t) ","%char)))
                                  h)))
    by (simpl; rewrite List.length_map; lia).
  split; [exact Hlen|]. split; [exact Hpos|]. split; [|split].
  - intros fuel r h2 d2.
    apply (blockLoop_preserves (fun h => 0 < Go.len (BootstrapServers h)));
      [apply servers_kept | exact Hpos].
  - unfold Validate.
    destruct (BootstrapServers _) as [[|x l]|] eqn:Hb; simpl in *; try lia.
    repeat match goal with
           | |- context [if ?c then _ else _] => destruct c
           end; discriminate.
  - intros Htext. rewrite Htext. split; [reflexivity|].
    intros Htopic Hsasl. unfold Validate. simpl.
    apply String.eqb_neq in Htopic. now rewrite Htopic, Hsasl.
Qed.

Lemma bootstrap_servers_never_empty_witness :
  exists h1 d1,
    directive newKafkaHandler (inBlockAt emptyServerBlock 2) = (None, h1, d1) /\
    BootstrapServers h1 = Some [""] /\
    Validate h1 <> Some (Go.Errorf "kafka bootstrap_servers missing").
Proof.
  destruct (bootstrap_servers_never_empty
              newKafkaHandler (inBlockAt emptyServerBlock 2) (qtok 2 "")
              eq_refl eq_refl)
    as (h1 & d1 & Hd & _ & _ & _ & Hv & He).
  exists h1, d1. repeat split; [exact Hd | apply (He eq_refl) | exact Hv].
Defined.

(** The block [bootstrap_servers ""] with a topic parses to the single
    empty address, and the handler passes [Validate]. *)
Example UnmarshalCaddyfile_emptyServerBlock :
  exists h1 d1,
    UnmarshalCaddyfile newKafkaHandler
                       (caddyfile.NewDispenser emptyServerBlock)
    = Some (None, h1, d1) /\
    BootstrapServers h1 = Some [""] /\ Validate h1 = None.
Proof.
  do 2 eexists. split; [vm_compute; reflexivity | split; reflexivity].
Qed.

(** The block of the specification's example parses to its servers and
    topic, and the handler passes [Validate]. *)
Example UnmarshalCaddyfile_plainBlock :
  exists h1 d1,
    UnmarshalCaddyfile newKafkaHandler (caddyfile.NewDispenser plainBlock)
    = Some (None, h1, d1) /\
    BootstrapServers h1 = Some ["localhost:9092"] /\ Topic h1 = "events" /\
    Validate h1 = None.
Proof.
  do 2 eexists. split; [vm_compute; reflexivity | repeat split].
Qed.

(** ** What a parse leaves in the SASL fields *)

Lemma saslCoherent_kept (h : KafkaHandler) (d : caddyfile.Dispenser)
      (r : option Go.error) (h' : KafkaHandler) (d' : caddyfile.Dispenser) :
  saslCoherent h -> directive h d = (r, h', d') -> saslCoherent h'.
Proof.
  apply (directive_preserves saslCoherent);
    try (intros; assumption).
  intros a h1 [-> | ->] _ _; [left | right]; reflexivity.
Qed.

Lemma newKafkaHandler_saslCoherent : saslCoherent newKafkaHandler.
Proof. intros H; discriminate H. Qed.

(** C10.  A parse that starts from a handler whose SASL fields are coherent
    (the new handler is, SASL being off) and that succeeds with SASL
    enabled leaves one of the algorithms sha256 and sha512: [Validate] then
    never takes its invalid-algorithm branch, nor [Provision] its own. *)
Theorem parsed_sasl_algorithm_recognised
        (h : KafkaHandler) (d : caddyfile.Dispenser)
        (h' : KafkaHandler) (d' : caddyfile.Dispenser) :
  saslCoherent h ->
  UnmarshalCaddyfile h d = Some (None, h', d') ->
  SASLAuth h' = true ->
  (SASLAlgorithm_ h' = "sha256" \/ SASLAlgorithm_ h' = "sha512") /\
  Validate h' <> Some (Go.Errorf "kafka invalid sasl algorithm") /\
  scramMethod (SASLAlgorithm_ h') <> None.
Proof.
  intros Hc Hp Ha.
  assert (Hc' : saslCoherent h')
    by (apply (UnmarshalCaddyfile_preserves saslCoherent saslCoherent_kept
                 _ _ _ _ _ Hc Hp)).
  specialize (Hc' Ha). split; [exact Hc'|]. split.
  - unfold Validate.
    repeat match goal with
           | |- context [if ?c then _ else _] => destruct c eqn:?
           end; try discriminate.
    exfalso.
    match goal with
    | H : negb _ && negb _ = true |- _ =>
        apply andb_prop in H; destruct H as [H1 H2];
        apply negb_true_iff in H1, H2;
        apply String.eqb_neq in H1, H2
    end.
    destruct Hc'; contradiction.
  - unfold scramMethod, SASLMethodSHA256, SASLMethodSHA512.
    destruct Hc' as [-> | ->]; discriminate.
Qed.

Lemma parsed_sasl_algorithm_recognised_witness :
  exists h' d',
    UnmarshalCaddyfile newKafkaHandler (caddyfile.NewDispenser saslBlock)
    = Some (None, h', d') /\
    SASLAuth h' = true /\
    (SASLAlgorithm_ h' = "sha256" \/ SASLAlgorithm_ h' = "sha512").
Proof.
  do 2 eexists. split; [vm_compute; reflexivity|]. split; [reflexivity|].
  eapply (parsed_sasl_algorithm_recognised
            newKafkaHandler (caddyfile.NewDispenser saslBlock));
    [exact newKafkaHandler_saslCoherent | vm_compute; reflexivity
     | reflexivity].
Defined.

(** ** Unknown directives *)

(** An unknown name that the loop meets as a directive, in whatever round,
    makes [UnmarshalCaddyfile] return "unsupported argument", with the
    handler as the directives before left it. *)
Theorem unknown_directive_dispatched
        (h0 : KafkaHandler) (d00 d0 : caddyfile.Dispenser)
        (h : KafkaHandler) (d : caddyfile.Dispenser) :
  caddyfile.Next d00 = (true, d0) ->
  dispatched h0 d0 h d ->
  ~ In (caddyfile.Val d) directiveNames ->
  UnmarshalCaddyfile h0 d00
  = Some (Some (Go.Errorf ("unsupported argument: " ++ caddyfile.Val d)%string),
          h, d).
Proof.
  intros Hn Hd Hu. apply (dispatched_error _ _ _ _ _ _ _ _ Hn Hd).
  unfold directive. unfold directiveNames in Hu. simpl in Hu.
  repeat match goal with
         | |- context [String.eqb ?a ?b] =>
             destruct (String.eqb_spec a b) as [Heq|_];
             [exfalso; apply Hu; rewrite Heq; tauto|]
         end.
  reflexivity.
Qed.

Lemma unknown_directive_dispatched_witness :
  UnmarshalCaddyfile newKafkaHandler
                     (caddyfile.NewDispenser unknownDirectiveBlock)
  = Some (Some (Go.Errorf "unsupported argument: foo"),
          set_Topic "events" newKafkaHandler,
          inBlockAt unknownDirectiveBlock 4).
Proof.
  apply (unknown_directive_dispatched
           newKafkaHandler (caddyfile.NewDispenser unknownDirectiveBlock)
           (caddyfile.set_cursor 0
              (caddyfile.NewDispenser unknownDirectiveBlock))
           (set_Topic "events" newKafkaHandler)
           (inBlockAt unknownDirectiveBlock 4)).
  - reflexivity.
  - apply (dispatched_next _ _ newKafkaHandler
                           (inBlockAt unknownDirectiveBlock 2)
                           _ (inBlockAt unknownDirectiveBlock 3));
      [apply dispatched_first | |]; reflexivity.
  - simpl. intros [H|[H|[H|[H|[H|[]]]]]]; discriminate H.
Defined.

(** C7 does not hold of the code.  In the block
    [bootstrap_servers] / [foo] the line [foo] is a directive with an
    unknown name, yet [UnmarshalCaddyfile] returns nil: the
    [bootstrap_servers] case loads its argument with [d.Next()], which
    crosses the line break, and takes [foo] for the server list. *)
Lemma stray_directive_is_swallowed :
  caddyfile.isNextOnNewLine (tok 2 "bootstrap_servers") (tok 3 "foo") = true /\
  ~ In "foo" directiveNames /\
  UnmarshalCaddyfile newKafkaHandler
                     (caddyfile.NewDispenser strayDirectiveBlock)
  = Some (None, set_BootstrapServers (Some ["foo"]) newKafkaHandler,
          {| caddyfile.tokens := strayDirectiveBlock;
             caddyfile.cursor := 4; caddyfile.nesting := 0 |}).
Proof.
  split; [reflexivity|]. split; [|vm_compute; reflexivity].
  simpl. intros [H|[H|[H|[H|[H|[]]]]]]; discriminate H.
Qed.

(** * Further properties *)

(** ** Provision on its other paths *)

(** A Configuration that [Validate] accepts is never refused by
    [Provision] with an error: [Provision] returns nil, and then the
    transport carries the mechanism built from the configured algorithm,
    username and password when SASL is enabled and none when it is not, or
    it panics. *)
Theorem Provision_after_Validate
        (scramMechanism : scram.Algorithm -> string -> string ->
                          scram.mechanism + string)
        (ctx : Context) (h : KafkaHandler) :
  Validate h = None ->
  (forall e, fst (Provision scramMechanism ctx h) <> Returns (Some e)) /\
  (fst (Provision scramMechanism ctx h) = Returns None ->
   exists w t,
     writer (snd (Provision scramMechanism ctx h)) = Some w /\
     kafka.WTransport w = Some t /\
     (SASLAuth h = false -> kafka.SASL t = None) /\
     (SASLAuth h = true ->
      exists method m,
        scramMethod (SASLAlgorithm_ h) = Some method /\
        scramMechanism method (SASLUsername h) (SASLPassword h) = inl m /\
        kafka.SASL t = Some m)).
Proof.
  intros Hv.
  assert (Hm : SASLAuth h = true -> scramMethod (SASLAlgorithm_ h) <> None).
  { intros Ha. apply Validate_None_iff in Hv.
    destruct Hv as (_ & _ & _ & Hs). destruct (Hs Ha) as (_ & _ & [Hx|Hx]);
      unfold scramMethod; rewrite Hx; discriminate. }
  unfold Provision. destruct (SASLAuth h) eqn:Ha.
  - specialize (Hm eq_refl).
    destruct (scramMethod (SASLAlgorithm_ h)) as [method|]; [|now elim Hm].
    destruct (scramMechanism method (SASLUsername h) (SASLPassword h))
      as [m|err] eqn:Hc; simpl.
    + split; [discriminate|]. intros _. do 2 eexists.
      repeat split; try discriminate. intros _. exists method, m. auto.
    + split; discriminate.
  - simpl. split; [discriminate|]. intros _. do 2 eexists.
    repeat split. discriminate.
Qed.

Lemma Provision_after_Validate_witness :
  exists w t,
    writer (snd (Provision scramRejectingControls
                           {| ctxLogger := zapLogger |} saslUser)) = Some w /\
    kafka.WTransport w = Some t /\
    kafka.SASL t
    = Some {| scram.algo := scram.SHA256; scram.user := "sasl_user";
              scram.pass := "sasl_password" |}.
Proof.
  destruct (Provision_after_Validate
              scramRejectingControls {| ctxLogger := zapLogger |} saslUser
              eq_refl) as [_ Hok].
  destruct (Hok eq_refl) as (w & t & Hw & Ht & _ & Hs).
  destruct (Hs eq_refl) as (method & m & Hm & Hc & Hsasl).
  exists w, t. repeat split; try assumption.
  inversion Hm; subst method. inversion Hc; subst m. exact Hsasl.
Defined.

(** Whatever way [Provision] ends (nil, error or panic), it leaves the
    Configuration as it was and has set the logger and a writer that is
    asynchronous, has for address what [kafka.TCP] makes of the bootstrap
    servers, and has a TLS configuration exactly when TLS is enabled, with
    certificate verification skipped exactly when [tls_no_verify] is set
    as well: on its own, [tls_no_verify] gives no TLS at all. *)
Theorem Provision_writer
        (scramMechanism : scram.Algorithm -> string -> string ->
                          scram.mechanism + string)
        (ctx : Context) (h : KafkaHandler) :
  set_writer (writer h)
    (set_logger (logger h) (snd (Provision scramMechanism ctx h))) = h /\
  logger (snd (Provision scramMechanism ctx h)) = Some (ctxLogger ctx) /\
  exists w t,
    writer (snd (Provision scramMechanism ctx h)) = Some w /\
    kafka.Addr w = kafka.TCP (Go.elems (BootstrapServers h)) /\
    kafka.Async w = true /\
    kafka.WTransport w = Some t /\
    kafka.TLS t
    = (if TLSEnabled h
       then Some {| InsecureSkipVerify := TLSNoVerify h |}
       else None).
Proof.
  unfold Provision.
  destruct (SASLAuth h);
    [destruct (scramMethod (SASLAlgorithm_ h)) as [method|];
     [destruct (scramMechanism method (SASLUsername h) (SASLPassword h))|]|];
    simpl; (split; [destruct h; reflexivity|]); (split; [reflexivity|]);
    do 2 eexists; repeat split; simpl;
    destruct (TLSEnabled h); try reflexivity;
    destruct (TLSNoVerify h); reflexivity.
Qed.

(** With SASL enabled and an algorithm that is neither sha256 nor sha512,
    [Provision] returns the error "invalid sasl algorithm: <algorithm>"
    without consulting the mechanism constructor, and attaches no
    mechanism. *)
Theorem Provision_unrecognised_algorithm
        (scramMechanism : scram.Algorithm -> string -> string ->
                          scram.mechanism + string)
        (ctx : Context) (h : KafkaHandler) :
  SASLAuth h = true ->
  SASLAlgorithm_ h <> "sha256" ->
  SASLAlgorithm_ h <> "sha512" ->
  fst (Provision scramMechanism ctx h)
  = Returns (Some (Go.Errorf ("invalid sasl algorithm: "
                                ++ SASLAlgorithm_ h)%string)) /\
  (forall other,
      Provision other ctx h = Provision scramMechanism ctx h) /\
  (forall w t,
      writer (snd (Provision scramMechanism ctx h)) = Some w ->
      kafka.WTransport w = Some t -> kafka.SASL t = None).
Proof.
  intros Ha H1 H2.
  assert (Hm : scramMethod (SASLAlgorithm_ h) = None).
  { unfold scramMethod, SASLMethodSHA256, SASLMethodSHA512.
    apply String.eqb_neq in H1, H2. now rewrite H1, H2. }
  unfold Provision. rewrite Ha, Hm. simpl.
  split; [reflexivity|]. split; [reflexivity|].
  intros w t Hw Ht. inversion Hw; subst w. simpl in Ht.
  inversion Ht; subst t. reflexivity.
Qed.

Lemma Provision_unrecognised_algorithm_witness :
  fst (Provision scramRejectingControls {| ctxLogger := zapLogger |} md5User)
  = Returns (Some (Go.Errorf "invalid sasl algorithm: md5")).
Proof.
  apply (Provision_unrecognised_algorithm
           scramRejectingControls {| ctxLogger := zapLogger |} md5User);
    [reflexivity | discriminate | discriminate].
Defined.

(** ** Handle on its error paths *)

(** [Handle] returns nil exactly when the envelope serializes and the
    producer takes the message without an error.  When serialization fails
    the error is "failed to serialize event data: ..." and the producer is
    not called at all (it is left as it was, whatever it would do); when
    the producer refuses the message the error is "failed to write event to
    Kafka: ...". *)
Theorem Handle_result
        (Event : Type) (CloudEventOf : Event -> CloudEvent)
        (jsonMarshal : CloudEvent -> list Byte.byte + string)
        (Ctx Producer : Type)
        (WriteMessages : option kafka.Writer -> Ctx -> list kafka.Message ->
                         Producer -> option string * Producer)
        (h : KafkaHandler) (ctx : Ctx) (e : Event) (p : Producer) :
  (fst (Handle Event CloudEventOf jsonMarshal Ctx Producer WriteMessages
               h ctx e p) = None <->
   exists data,
     jsonMarshal (CloudEventOf e) = inl data /\
     fst (WriteMessages (writer h) ctx
                        [outbound Event CloudEventOf h e data] p) = None) /\
  (forall err,
      jsonMarshal (CloudEventOf e) = inr err ->
      forall anyWrite,
        Handle Event CloudEventOf jsonMarshal Ctx Producer anyWrite h ctx e p
        = (Some (Go.Errorf ("failed to serialize event data: " ++ err)%string),
           p)) /\
  (forall data err,
      jsonMarshal (CloudEventOf e) = inl data ->
      fst (WriteMessages (writer h) ctx
                         [outbound Event CloudEventOf h e data] p) = Some err ->
      fst (Handle Event CloudEventOf jsonMarshal Ctx Producer WriteMessages
                  h ctx e p)
      = Some (Go.Errorf ("failed to write event to Kafka: " ++ err)%string)).
Proof.
  unfold Handle. repeat split.
  - destruct (jsonMarshal (CloudEventOf e)) as [data|err]; [|discriminate].
    destruct (WriteMessages (writer h) ctx
                [outbound Event CloudEventOf h e data] p)
      as [[err|] p1] eqn:Hw; [discriminate|].
    intros _. exists data. rewrite Hw. auto.
  - intros (data & Hd & Hw). rewrite Hd.
    destruct (WriteMessages (writer h) ctx
                [outbound Event CloudEventOf h e data] p) as [[err|] p1];
      [discriminate | reflexivity].
  - intros err He anyWrite. now rewrite He.
  - intros data err Hd Hw. rewrite Hd.
    destruct (WriteMessages (writer h) ctx
                [outbound Event CloudEventOf h e data] p) as [[err'|] p1];
      simpl in *; congruence.
Qed.

(** ** What Validate does not look at *)

(** [Validate] reads neither the logger, the writer nor the TLS flags
    ([tls_no_verify] without [tls] passes), and with SASL disabled it reads
    none of the SASL fields: an unknown algorithm is accepted then. *)
Theorem Validate_ignores (h : KafkaHandler) :
  (forall l w tls noverify,
      Validate (set_logger l (set_writer w (set_TLSEnabled tls
                 (set_TLSNoVerify noverify h)))) = Validate h) /\
  (SASLAuth h = false ->
   forall a u p,
     Validate (set_SASLAlgorithm a (set_SASLUsername u (set_SASLPassword p h)))
     = Validate h).
Proof.
  split.
  - intros l w tls noverify. reflexivity.
  - intros Ha a u p. unfold Validate. simpl. rewrite Ha. reflexivity.
Qed.

(** ** The other directives *)

Lemma directive_topic (h : KafkaHandler) (d : caddyfile.Dispenser) :
  caddyfile.Val d = "topic" ->
  directive h d
  = (let d1 := caddyfile.set_cursor
                 (caddyfile.cursor d
                  + Z.of_nat (Nat.min 1 (List.length (lineArgs d)))) d in
     let h1 := assign [set_Topic] (lineArgs d) h in
     if negb (1 <=? List.length (lineArgs d))%nat
     then (Some (caddyfile.ArgErr d1), h1, d1)
     else (None, h1, d1)).
Proof.
  intros Hv.
  assert (Hc : 0 <= caddyfile.cursor d < caddyfile.ntokens d)
    by (apply Val_in_range; rewrite Hv; discriminate).
  unfold directive. rewrite Hv. cbn [String.eqb Ascii.eqb Bool.eqb].
  rewrite Args_lineArgs by assumption. reflexivity.
Qed.

Lemma directive_tls (h : KafkaHandler) (d : caddyfile.Dispenser) :
  caddyfile.Val d = "tls" ->
  directive h d
  = (let d1 := caddyfile.set_cursor
                 (caddyfile.cursor d
                  + Z.of_nat (Nat.min 1 (List.length (lineArgs d)))) d in
     let tls_enabled :=
       assign [fun v (_ : string) => v] (lineArgs d) "" in
     if negb (1 <=? List.length (lineArgs d))%nat
     then (Some (caddyfile.ArgErr d1), h, d1)
     else if String.eqb tls_enabled "on" then (None, set_TLSEnabled true h, d1)
     else if String.eqb tls_enabled "off"
     then (None, set_TLSEnabled false h, d1)
     else (Some (Go.Errorf "invalid value for tls"), h, d1)).
Proof.
  intros Hv.
  assert (Hc : 0 <= caddyfile.cursor d < caddyfile.ntokens d)
    by (apply Val_in_range; rewrite Hv; discriminate).
  unfold directive. rewrite Hv. cbn [String.eqb Ascii.eqb Bool.eqb].
  rewrite Args_lineArgs by assumption. reflexivity.
Qed.

(** At a [topic] directive the first argument of the line becomes the
    topic, whatever it is (the empty string too) and whatever the topic was
    before, and nothing else changes; a line without an argument is the
    dispenser's argument error and leaves the handler as it was. *)
Theorem topic_directive (h : KafkaHandler) (d : caddyfile.Dispenser) :
  caddyfile.Val d = "topic" ->
  (forall v rest,
      lineArgs d = v :: rest ->
      directive h d
      = (None, set_Topic v h,
         caddyfile.set_cursor (caddyfile.cursor d + 1) d)) /\
  (lineArgs d = [] ->
   directive h d
   = (Some (Go.WrapErr
              "wrong argument count or unexpected line ending after 'topic'"
              (caddyfile.curFile d) (caddyfile.curLine d)), h, d)).
Proof.
  intros Hv. pose proof (directive_topic h d Hv) as Hd. split.
  - intros v rest Hl. rewrite Hd, Hl. reflexivity.
  - intros Hl. rewrite Hd, Hl. simpl.
    rewrite Z.add_0_r, set_cursor_same.
    unfold caddyfile.ArgErr. rewrite Hv. reflexivity.
Qed.

Lemma topic_directive_witness :
  directive newKafkaHandler (inBlockAt plainBlock 4)
  = (None, set_Topic "events" newKafkaHandler, inBlockAt plainBlock 5).
Proof.
  apply (proj1 (topic_directive newKafkaHandler (inBlockAt plainBlock 4)
                                eq_refl) "events" []).
  reflexivity.
Defined.

(** At a [tls] directive the first argument of the line decides: [on]
    enables TLS, [off] disables it (also when an earlier directive enabled
    it), any other token is the error "invalid value for tls", and a line
    without an argument is the dispenser's argument error; the two errors
    leave the handler as it was. *)
Theorem tls_directive (h : KafkaHandler) (d : caddyfile.Dispenser) :
  caddyfile.Val d = "tls" ->
  (forall v rest,
      lineArgs d = v :: rest ->
      directive h d
      = (if String.eqb v "on" then None
         else if String.eqb v "off" then None
         else Some (Go.Errorf "invalid value for tls"),
         if String.eqb v "on" then set_TLSEnabled true h
         else if String.eqb v "off" then set_TLSEnabled false h
         else h,
         caddyfile.set_cursor (caddyfile.cursor d + 1) d)) /\
  (lineArgs d = [] ->
   directive h d
   = (Some (Go.WrapErr
              "wrong argument count or unexpected line ending after 'tls'"
              (caddyfile.curFile d) (caddyfile.curLine d)), h, d)).
Proof.
  intros Hv. pose proof (directive_tls h d Hv) as Hd. split.
  - intros v rest Hl. rewrite Hd, Hl. simpl.
    destruct (String.eqb v "on"); [reflexivity|].
    destruct (String.eqb v "off"); reflexivity.
  - intros Hl. rewrite Hd, Hl. simpl.
    rewrite Z.add_0_r, set_cursor_same.
    unfold caddyfile.ArgErr. rewrite Hv. reflexivity.
Qed.

(** A [sasl_scram] directive that fails has already stored what it read:
    with the password missing, the username of the line has replaced the
    handler's; with an algorithm other than sha256 and sha512, both the
    username and the password have.  With only the algorithm on the line
    nothing is stored. *)
Theorem sasl_scram_failure_stores (h : KafkaHandler)
        (d : caddyfile.Dispenser) :
  caddyfile.Val d = "sasl_scram" ->
  (forall a,
      lineArgs d = [a] ->
      exists e d1, directive h d = (Some e, h, d1)) /\
  (forall a u,
      lineArgs d = [a; u] ->
      exists e d1, directive h d = (Some e, set_SASLUsername u h, d1)) /\
  (forall a u p rest,
      lineArgs d = a :: u :: p :: rest ->
      a <> "sha256" -> a <> "sha512" ->
      exists e d1,
        directive h d
        = (Some e, set_SASLPassword p (set_SASLUsername u h), d1)).
Proof.
  intros Hv. pose proof (directive_sasl_scram h d Hv) as Hd.
  repeat split.
  - intros a Hl. rewrite Hd, Hl. simpl. eauto.
  - intros a u Hl. rewrite Hd, Hl. simpl. eauto.
  - intros a u p rest Hl Ha Hb. rewrite Hd, Hl. simpl.
    apply String.eqb_neq in Ha, Hb. rewrite Ha, Hb. eauto.
Qed.

Lemma sasl_scram_failure_stores_witness :
  exists e d1,
    directive newKafkaHandler (inBlockAt saslNoPasswordBlock 2)
    = (Some e, set_SASLUsername "u" newKafkaHandler, d1).
Proof.
  apply (proj1 (proj2 (sasl_scram_failure_stores
                         newKafkaHandler (inBlockAt saslNoPasswordBlock 2)
                         eq_refl)) "sha512" "u").
  reflexivity.
Defined.

(** A [bootstrap_servers] directive fails exactly when it is the last
    token: it takes the token that follows as its argument even when that
    token stands on another line, and only the end of the tokens is the
    dispenser's argument error, which leaves the handler as it was. *)
Theorem bootstrap_servers_argument (h : KafkaHandler)
        (d : caddyfile.Dispenser) :
  caddyfile.Val d = "bootstrap_servers" ->
  (fst (fst (directive h d)) = None <->
   exists t, caddyfile.token_at d (caddyfile.cursor d + 1) = Some t) /\
  (caddyfile.token_at d (caddyfile.cursor d + 1) = None ->
   directive h d
   = (Some (Go.WrapErr
              ("wrong argument count or unexpected line ending after "
                 ++ "'bootstrap_servers'")
              (caddyfile.curFile d) (caddyfile.curLine d)), h, d)).
Proof.
  intros Hv.
  assert (Hc : 0 <= caddyfile.cursor d < caddyfile.ntokens d)
    by (apply Val_in_range; rewrite Hv; discriminate).
  assert (Hnone : caddyfile.token_at d (caddyfile.cursor d + 1) = None ->
                  directive h d
                  = (Some (caddyfile.ArgErr d), h, d)).
  { intros Ht. unfold directive. rewrite Hv.
    cbn [String.eqb Ascii.eqb Bool.eqb].
    unfold caddyfile.Next.
    destruct (Z.ltb_spec (caddyfile.cursor d) (caddyfile.ntokens d - 1))
      as [Hlt|_]; [|reflexivity].
    destruct (token_at_in_range d (caddyfile.cursor d + 1)) as [_ [t Hs]];
      [lia | congruence]. }
  split.
  - destruct (caddyfile.token_at d (caddyfile.cursor d + 1)) as [t|] eqn:Ht.
    + rewrite (directive_bootstrap_servers h d t Hv Ht). simpl.
      split; eauto.
    + rewrite (Hnone eq_refl). simpl.
      split; [discriminate | intros [t Hs]; discriminate].
  - intros Ht. rewrite (Hnone Ht). unfold caddyfile.ArgErr. rewrite Hv.
    reflexivity.
Qed.

Lemma bootstrap_servers_argument_witness :
  caddyfile.isNextOnNewLine (tok 2 "bootstrap_servers") (tok 3 "foo") = true /\
  fst (fst (directive newKafkaHandler (inBlockAt strayDirectiveBlock 2)))
  = None.
Proof.
  split; [reflexivity|].
  apply (proj1 (bootstrap_servers_argument
                  newKafkaHandler (inBlockAt strayDirectiveBlock 2) eq_refl)).
  exists (tok 3 "foo"). reflexivity.
Defined.

(** ** What a parse leaves alone *)

Lemma Val_in_tokens (d : caddyfile.Dispenser) :
  caddyfile.Val d <> "" ->
  exists t, In t (caddyfile.tokens d) /\ caddyfile.Text t = caddyfile.Val d.
Proof.
  intros Hv. pose proof (Val_in_range d Hv) as Hc.
  destruct (token_at_in_range d _ Hc) as [Hnth [t Ht]].
  exists t. split.
  - rewrite Hnth in Ht. apply (nth_error_In _ _ Ht).
  - unfold caddyfile.Val. now rewrite Ht.
Qed.

Lemma directive_touches (h : KafkaHandler) (d : caddyfile.Dispenser)
      (r : option Go.error) (h' : KafkaHandler) (d' : caddyfile.Dispenser) :
  directive h d = (r, h', d') ->
  logger h' = logger h /\ writer h' = writer h /\
  (caddyfile.Val d <> "topic" -> Topic h' = Topic h) /\
  (caddyfile.Val d <> "bootstrap_servers" ->
   BootstrapServers h' = BootstrapServers h) /\
  (caddyfile.Val d <> "tls" -> TLSEnabled h' = TLSEnabled h) /\
  (caddyfile.Val d <> "tls_no_verify" -> TLSNoVerify h' = TLSNoVerify h) /\
  (caddyfile.Val d <> "sasl_scram" ->
   SASLAuth h' = SASLAuth h /\ SASLAlgorithm_ h' = SASLAlgorithm_ h /\
   SASLUsername h' = SASLUsername h /\ SASLPassword h' = SASLPassword h).
Proof.
  directive_cases h d.
  - apply String.eqb_eq in Htopic.
    destruct (caddyfile.Args [set_Topic] h d) as [[ok h1] d1] eqn:Ha.
    apply (Args_preserves
             _ (fun x => logger x = logger h /\ writer x = writer h /\
                         BootstrapServers x = BootstrapServers h /\
                         TLSEnabled x = TLSEnabled h /\
                         TLSNoVerify x = TLSNoVerify h /\
                         SASLAuth x = SASLAuth h /\
                         SASLAlgorithm_ x = SASLAlgorithm_ h /\
                         SASLUsername x = SASLUsername h /\
                         SASLPassword x = SASLPassword h)) in Ha;
      [| repeat (apply Forall_cons; [intros v s Hs; exact Hs|]);
         apply Forall_nil
       | repeat split].
    destruct Ha as (H1 & H2 & H3 & H4 & H5 & H6 & H7 & H8 & H9).
    destruct ok; simpl; intros H; inversion H; subst;
      repeat split; auto; intros; congruence.
  - apply String.eqb_eq in Hsasl.
    destruct (caddyfile.Args _ ("", h) d) as [[ok s1] d1] eqn:Ha.
    apply (Args_preserves
             _ (fun x => logger (snd x) = logger h /\
                         writer (snd x) = writer h /\
                         Topic (snd x) = Topic h /\
                         BootstrapServers (snd x) = BootstrapServers h /\
                         TLSEnabled (snd x) = TLSEnabled h /\
                         TLSNoVerify (snd x) = TLSNoVerify h)) in Ha;
      [| repeat (apply Forall_cons; [intros v s Hs; exact Hs|]);
         apply Forall_nil
       | repeat split].
    destruct Ha as (H1 & H2 & H3 & H4 & H5 & H6).
    destruct ok; simpl;
      repeat match goal with
             | |- context [if ?c then _ else _] => destruct c
             end; intros H; inversion H; subst; simpl;
      repeat split; auto; intros; congruence.
  - apply String.eqb_eq in Htls.
    destruct (caddyfile.Args _ "" d) as [[ok s1] d1].
    destruct ok; simpl;
      repeat match goal with
             | |- context [if ?c then _ else _] => destruct c
             end; intros H; inversion H; subst; simpl;
      repeat split; auto; intros; congruence.
  - apply String.eqb_eq in Hnoverify.
    intros H; inversion H; subst; simpl.
    repeat split; auto; intros; congruence.
  - apply String.eqb_eq in Hservers.
    destruct (caddyfile.Next d) as [ok d1].
    destruct ok; simpl; intros H; inversion H; subst; simpl;
      repeat split; auto; intros; congruence.
  - intros H; inversion H; subst. repeat split; auto.
Qed.

Lemma blockLoop_untouched (Q : KafkaHandler -> Prop) (name : string)
      (toks : list caddyfile.Token) :
  name <> "" ->
  (forall h d r h' d',
      caddyfile.Val d <> name -> Q h -> directive h d = (r, h', d') -> Q h') ->
  (forall t, In t toks -> caddyfile.Text t <> name) ->
  forall fuel h d r h' d',
    caddyfile.tokens d = toks -> Q h ->
    blockLoop fuel h d = Some (r, h', d') -> Q h'.
Proof.
  intros Hname Hstep Habsent fuel.
  induction fuel as [|fuel IH]; intros h d r h' d' Ht Hq Hl;
    [discriminate|]. simpl in Hl.
  destruct (caddyfile.NextBlock 0 d) as [more d1] eqn:Hb.
  apply NextBlock_forward in Hb. destruct Hb as [[Ht1 _] _].
  destruct more; simpl in Hl; [|inversion Hl; subst; assumption].
  assert (Hval : caddyfile.Val d1 <> name).
  { intros Hv.
    destruct (Val_in_tokens d1) as (t & Hin & Htext); [congruence|].
    apply (Habsent t); [congruence | congruence]. }
  destruct (directive h d1) as [[[e|] h1] d2] eqn:Hd.
  - inversion Hl; subst. eapply Hstep; eassumption.
  - pose proof (directive_forward _ _ _ _ _ Hd) as [Ht2 _].
    eapply IH; [|eapply Hstep; eassumption | exact Hl]. congruence.
Qed.

Lemma UnmarshalCaddyfile_untouched (Q : KafkaHandler -> Prop) (name : string)
      (h : KafkaHandler) (d : caddyfile.Dispenser)
      (r : option Go.error) (h' : KafkaHandler) (d' : caddyfile.Dispenser) :
  name <> "" ->
  (forall h d r h' d',
      caddyfile.Val d <> name -> Q h -> directive h d = (r, h', d') -> Q h') ->
  (forall t, In t (caddyfile.tokens d) -> caddyfile.Text t <> name) ->
  Q h -> UnmarshalCaddyfile h d = Some (r, h', d') -> Q h'.
Proof.
  intros Hname Hstep Habsent Hq. unfold UnmarshalCaddyfile.
  destruct (caddyfile.Next d) as [ok d1] eqn:Hn.
  apply Next_forward in Hn. destruct Hn as [[Ht _] _].
  destruct ok; cbn [negb].
  - apply (blockLoop_untouched Q name (caddyfile.tokens d) Hname Hstep Habsent);
      assumption.
  - intros H; inversion H; subst; assumption.
Qed.

(** A parse changes a field of the handler only through the directive of
    that field: whatever the tokens and whatever the outcome, the logger
    and the writer stay, and each of the topic, the bootstrap servers, the
    TLS flag, the verification flag and the four SASL fields keeps its
    value when no token is the name of its directive. *)
Theorem UnmarshalCaddyfile_changes_only_named_fields
        (h : KafkaHandler) (d : caddyfile.Dispenser)
        (r : option Go.error) (h' : KafkaHandler) (d' : caddyfile.Dispenser) :
  UnmarshalCaddyfile h d = Some (r, h', d') ->
  logger h' = logger h /\ writer h' = writer h /\
  (absent "topic" d -> Topic h' = Topic h) /\
  (absent "bootstrap_servers" d -> BootstrapServers h' = BootstrapServers h) /\
  (absent "tls" d -> TLSEnabled h' = TLSEnabled h) /\
  (absent "tls_no_verify" d -> TLSNoVerify h' = TLSNoVerify h) /\
  (absent "sasl_scram" d ->
   SASLAuth h' = SASLAuth h /\ SASLAlgorithm_ h' = SASLAlgorithm_ h /\
   SASLUsername h' = SASLUsername h /\ SASLPassword h' = SASLPassword h).
Proof.
  intros Hp.
  assert (Hframe : logger h' = logger h /\ writer h' = writer h).
  { apply (UnmarshalCaddyfile_preserves
             (fun x => logger x = logger h /\ writer x = writer h))
      with (h := h) (d := d) (r := r) (d' := d'); auto.
    intros h1 d1 r1 h2 d2 [H1 H2] Hd.
    destruct (directive_touches _ _ _ _ _ Hd) as (Hl & Hw & _).
    split; congruence. }
  destruct Hframe as [Hl Hw].
  split; [exact Hl|]. split; [exact Hw|].
  assert (Hfield :
            forall (A : Type) (f : KafkaHandler -> A) (name : string),
              name <> "" ->
              (forall h1 d1 r1 h2 d2,
                  caddyfile.Val d1 <> name ->
                  directive h1 d1 = (r1, h2, d2) -> f h2 = f h1) ->
              absent name d -> f h' = f h).
  { intros A f name Hn Hstep Ha.
    apply (UnmarshalCaddyfile_untouched
             (fun x => f x = f h) name h d r h' d'); auto.
    intros h1 d1 r1 h2 d2 Hv Hq Hd.
    rewrite (Hstep _ _ _ _ _ Hv Hd). exact Hq. }
  split; [|split; [|split; [|split]]]; intros Ha.
  - apply (Hfield _ Topic "topic"); [discriminate | | exact Ha].
    intros h1 d1 r1 h2 d2 Hv Hd.
    now apply (directive_touches _ _ _ _ _ Hd).
  - apply (Hfield _ BootstrapServers "bootstrap_servers");
      [discriminate | | exact Ha].
    intros h1 d1 r1 h2 d2 Hv Hd.
    now apply (directive_touches _ _ _ _ _ Hd).
  - apply (Hfield _ TLSEnabled "tls"); [discriminate | | exact Ha].
    intros h1 d1 r1 h2 d2 Hv Hd.
    now apply (directive_touches _ _ _ _ _ Hd).
  - apply (Hfield _ TLSNoVerify "tls_no_verify"); [discriminate | | exact Ha].
    intros h1 d1 r1 h2 d2 Hv Hd.
    now apply (directive_touches _ _ _ _ _ Hd).
  - repeat split;
      [apply (Hfield _ SASLAuth "sasl_scram")
      |apply (Hfield _ SASLAlgorithm_ "sasl_scram")
      |apply (Hfield _ SASLUsername "sasl_scram")
      |apply (Hfield _ SASLPassword "sasl_scram")];
      try discriminate; try exact Ha;
      intros h1 d1 r1 h2 d2 Hv Hd;
      destruct (directive_touches _ _ _ _ _ Hd)
        as (_ & _ & _ & _ & _ & _ & H5);
      now destruct (H5 Hv) as (H6 & H7 & H8 & H9).
Qed.

Lemma UnmarshalCaddyfile_changes_only_named_fields_witness :
  exists h' d',
    UnmarshalCaddyfile newKafkaHandler (caddyfile.NewDispenser plainBlock)
    = Some (None, h', d') /\
    TLSEnabled h' = false /\ SASLAuth h' = false.
Proof.
  do 2 eexists. split; [vm_compute; reflexivity|].
  destruct (UnmarshalCaddyfile_changes_only_named_fields
              newKafkaHandler (caddyfile.NewDispenser plainBlock) None
              _ _ eq_refl) as (_ & _ & _ & _ & Htls & _ & Hsasl).
  split.
  - apply Htls. intros t Hin. simpl in Hin.
    repeat (destruct Hin as [<- | Hin]; [discriminate|]). contradiction.
  - apply Hsasl. intros t Hin. simpl in Hin.
    repeat (destruct Hin as [<- | Hin]; [discriminate|]). contradiction.
Defined.

(** No directive turns SASL off or certificate verification back on: a
    handler that has SASL enabled, or verification skipped, keeps that
    through any parse, whatever its outcome. *)
Theorem UnmarshalCaddyfile_never_clears
        (h : KafkaHandler) (d : caddyfile.Dispenser)
        (r : option Go.error) (h' : KafkaHandler) (d' : caddyfile.Dispenser) :
  UnmarshalCaddyfile h d = Some (r, h', d') ->
  (SASLAuth h = true -> SASLAuth h' = true) /\
  (TLSNoVerify h = true -> TLSNoVerify h' = true).
Proof.
  intros Hp. split; intros Hs.
  - apply (UnmarshalCaddyfile_preserves (fun x => SASLAuth x = true))
      with (h := h) (d := d) (r := r) (d' := d'); auto.
    apply (directive_preserves (fun x => SASLAuth x = true)); auto.
  - apply (UnmarshalCaddyfile_preserves (fun x => TLSNoVerify x = true))
      with (h := h) (d := d) (r := r) (d' := d'); auto.
    apply (directive_preserves (fun x => TLSNoVerify x = true)); auto.
Qed.

Lemma UnmarshalCaddyfile_never_clears_witness :
  exists h' d',
    UnmarshalCaddyfile saslUser (caddyfile.NewDispenser plainBlock)
    = Some (None, h', d') /\ SASLAuth h' = true.
Proof.
  do 2 eexists. split; [vm_compute; reflexivity|].
  apply (UnmarshalCaddyfile_never_clears
           saslUser (caddyfile.NewDispenser plainBlock) None _ _ eq_refl).
  reflexivity.
Defined.

(** ** A block is parsed directive by directive *)

Lemma token_at_app (d : caddyfile.Dispenser)
      (a : list caddyfile.Token) (t : caddyfile.Token)
      (b : list caddyfile.Token) :
  caddyfile.tokens d = a ++ t :: b ->
  caddyfile.token_at d (Z.of_nat (List.length a)) = Some t.
Proof.
  intros Ht.
  assert (Hr : 0 <= Z.of_nat (List.length a) < caddyfile.ntokens d).
  { unfold caddyfile.ntokens. rewrite Ht, List.length_app. simpl. lia. }
  destruct (token_at_in_range d _ Hr) as [Hn _].
  rewrite Hn, Ht, Nat2Z.id, nth_error_app2 by lia.
  now rewrite Nat.sub_diag.
Qed.

Lemma Val_at (d : caddyfile.Dispenser)
      (a : list caddyfile.Token) (t : caddyfile.Token)
      (b : list caddyfile.Token) :
  caddyfile.tokens d = a ++ t :: b ->
  caddyfile.cursor d = Z.of_nat (List.length a) ->
  caddyfile.Val d = caddyfile.Text t.
Proof.
  intros Ht Hc. unfold caddyfile.Val.
  now rewrite Hc, (token_at_app d a t b Ht).
Qed.

Lemma Next_at (d : caddyfile.Dispenser)
      (a : list caddyfile.Token) (t : caddyfile.Token)
      (b : list caddyfile.Token) :
  caddyfile.tokens d = a ++ t :: b ->
  caddyfile.cursor d = Z.of_nat (List.length a) - 1 ->
  caddyfile.Next d
  = (true, caddyfile.set_cursor (Z.of_nat (List.length a)) d).
Proof.
  intros Ht Hc. unfold caddyfile.Next, caddyfile.ntokens.
  rewrite Ht, List.length_app. simpl List.length.
  destruct (Z.ltb_spec (caddyfile.cursor d)
                       (Z.of_nat (List.length a + S (List.length b)) - 1))
    as [_|Hge]; [|lia].
  do 2 f_equal. lia.
Qed.

Lemma nextOnSameLine_at_end (d : caddyfile.Dispenser)
      (a : list caddyfile.Token) (t : caddyfile.Token) :
  caddyfile.tokens d = a ++ [t] ->
  caddyfile.cursor d = Z.of_nat (List.length a) ->
  caddyfile.nextOnSameLine d = (false, d).
Proof.
  intros Ht Hc. unfold caddyfile.nextOnSameLine, caddyfile.ntokens.
  rewrite Ht, List.length_app. simpl List.length.
  destruct (Z.ltb_spec (caddyfile.cursor d) 0) as [Hneg|_]; [lia|].
  destruct (Z.leb_spec (Z.of_nat (List.length a + 1) - 1) (caddyfile.cursor d))
    as [_|Hlt]; [reflexivity | lia].
Qed.

Lemma nextOnSameLine_at (d : caddyfile.Dispenser)
      (a : list caddyfile.Token) (t1 t2 : caddyfile.Token)
      (b : list caddyfile.Token) :
  caddyfile.tokens d = a ++ t1 :: t2 :: b ->
  caddyfile.cursor d = Z.of_nat (List.length a) ->
  caddyfile.nextOnSameLine d
  = if caddyfile.isNextOnNewLine t1 t2 then (false, d)
    else (true, caddyfile.set_cursor (Z.of_nat (List.length a) + 1) d).
Proof.
  intros Ht Hc.
  assert (H1 : caddyfile.token_at d (caddyfile.cursor d) = Some t1)
    by (rewrite Hc; apply (token_at_app d a t1 (t2 :: b) Ht)).
  assert (H2 : caddyfile.token_at d (caddyfile.cursor d + 1) = Some t2).
  { replace (caddyfile.cursor d + 1)
      with (Z.of_nat (List.length (a ++ [t1])))
      by (rewrite List.length_app; simpl; lia).
    apply (token_at_app d (a ++ [t1]) t2 b).
    now rewrite <- app_assoc. }
  unfold caddyfile.nextOnSameLine. rewrite H1, H2.
  unfold caddyfile.ntokens. rewrite Ht, List.length_app. simpl List.length.
  destruct (Z.ltb_spec (caddyfile.cursor d) 0) as [Hneg|_]; [lia|].
  destruct (Z.leb_spec (Z.of_nat (List.length a + S (S (List.length b))) - 1)
                       (caddyfile.cursor d)) as [Hle|_]; [lia|].
  destruct (caddyfile.isNextOnNewLine t1 t2); simpl; [reflexivity|].
  now rewrite Hc.
Qed.

Lemma argsAfter_app (args : list caddyfile.Token) :
  forall (kw : caddyfile.Token) (post : list caddyfile.Token),
    areArgs kw args = true ->
    exists more, argsAfter kw (args ++ post) = args ++ more.
Proof.
  induction args as [|t args IH]; intros kw post Ha; simpl.
  - eauto.
  - simpl in Ha. apply andb_prop in Ha. destruct Ha as [Ha Hrest].
    apply andb_prop in Ha. destruct Ha as [Hline Hbrace].
    apply negb_true_iff in Hline, Hbrace. rewrite Hline, Hbrace.
    destruct (IH t post Hrest) as [more Hm]. rewrite Hm. eauto.
Qed.

Lemma skipn_past (A : Type) (a : list A) (x : A) (b : list A) :
  List.skipn (S (List.length a)) (a ++ x :: b) = b.
Proof. induction a as [|y a IH]; simpl; [reflexivity | exact IH]. Qed.

Lemma lineArgs_at (d : caddyfile.Dispenser)
      (a : list caddyfile.Token) (kw : caddyfile.Token)
      (args post : list caddyfile.Token) :
  caddyfile.tokens d = a ++ kw :: args ++ post ->
  caddyfile.cursor d = Z.of_nat (List.length a) ->
  areArgs kw args = true ->
  exists more, lineArgs d = List.map caddyfile.Text args ++ more.
Proof.
  intros Ht Hc Ha. unfold lineArgs.
  rewrite Hc, (token_at_app d a kw (args ++ post) Ht), Nat2Z.id, Ht,
    skipn_past.
  destruct (argsAfter_app args kw post Ha) as [more Hm].
  rewrite Hm, List.map_app. eauto.
Qed.

Lemma directive_tls_no_verify (h : KafkaHandler) (d : caddyfile.Dispenser) :
  caddyfile.Val d = "tls_no_verify" ->
  directive h d = (None, set_TLSNoVerify true h, d).
Proof. intros Hv. unfold directive. rewrite Hv. reflexivity. Qed.

Lemma directive_unknown (h : KafkaHandler) (d : caddyfile.Dispenser) :
  ~ In (caddyfile.Val d) directiveNames ->
  directive h d
  = (Some (Go.Errorf ("unsupported argument: " ++ caddyfile.Val d)%string),
     h, d).
Proof.
  intros Hu. unfold directive. unfold directiveNames in Hu. simpl in Hu.
  repeat match goal with
         | |- context [String.eqb ?a ?b] =>
             destruct (String.eqb_spec a b) as [Heq|_];
             [exfalso; apply Hu; rewrite Heq; tauto|]
         end.
  reflexivity.
Qed.

Lemma wellFormed_head (l : Directive) :
  wellFormed l ->
  exists kw args,
    lineTokens l = kw :: args /\
    caddyfile.Text kw <> "}" /\ caddyfile.Text kw <> "{".
Proof.
  destruct l as [kw v|kw x u p|kw v|kw|kw v|kw]; simpl; intros H;
    do 2 eexists; (split; [reflexivity|]).
  - destruct H as [H _]. rewrite H. split; discriminate.
  - destruct H as [H _]. rewrite H. split; discriminate.
  - destruct H as [H _]. rewrite H. split; discriminate.
  - rewrite H. split; discriminate.
  - rewrite H. split; discriminate.
  - destruct H as (_ & H1 & H2). split; assumption.
Qed.

Lemma directive_line (l : Directive) (h : KafkaHandler)
      (d : caddyfile.Dispenser) (a post : list caddyfile.Token) :
  caddyfile.tokens d = a ++ lineTokens l ++ post ->
  caddyfile.cursor d = Z.of_nat (List.length a) ->
  wellFormed l ->
  directive h d
  = (fst (lineEffect l h), snd (lineEffect l h),
     caddyfile.set_cursor
       (caddyfile.cursor d + Z.of_nat (List.length (lineTokens l)) - 1) d).
Proof.
  intros Ht Hc Hw. destruct l as [kw v|kw x u p|kw v|kw|kw v|kw]; simpl in *.
  - destruct Hw as [Hk Ha].
    assert (Hv : caddyfile.Val d = "topic")
      by (rewrite (Val_at d a kw (v :: post) Ht Hc); exact Hk).
    destruct (lineArgs_at d a kw [v] post Ht Hc Ha) as [more Hl].
    rewrite (directive_topic h d Hv), Hl. simpl.
    do 2 f_equal. lia.
  - destruct Hw as [Hk Ha].
    assert (Hv : caddyfile.Val d = "sasl_scram")
      by (rewrite (Val_at d a kw (x :: u :: p :: post) Ht Hc); exact Hk).
    destruct (lineArgs_at d a kw [x; u; p] post Ht Hc Ha) as [more Hl].
    rewrite (directive_sasl_scram h d Hv), Hl. simpl.
    replace (caddyfile.cursor d + 4 - 1) with (caddyfile.cursor d + 3) by lia.
    destruct (String.eqb (caddyfile.Text x) "sha256"); [reflexivity|].
    destruct (String.eqb (caddyfile.Text x) "sha512"); reflexivity.
  - destruct Hw as [Hk Ha].
    assert (Hv : caddyfile.Val d = "tls")
      by (rewrite (Val_at d a kw (v :: post) Ht Hc); exact Hk).
    destruct (lineArgs_at d a kw [v] post Ht Hc Ha) as [more Hl].
    rewrite (directive_tls h d Hv), Hl. simpl.
    replace (caddyfile.cursor d + 2 - 1) with (caddyfile.cursor d + 1) by lia.
    destruct (String.eqb (caddyfile.Text v) "on"); [reflexivity|].
    destruct (String.eqb (caddyfile.Text v) "off"); reflexivity.
  - assert (Hv : caddyfile.Val d = "tls_no_verify")
      by (rewrite (Val_at d a kw post Ht Hc); exact Hw).
    rewrite (directive_tls_no_verify h d Hv).
    replace (caddyfile.cursor d + 1 - 1) with (caddyfile.cursor d) by lia.
    now rewrite set_cursor_same.
  - assert (Hv : caddyfile.Val d = "bootstrap_servers")
      by (rewrite (Val_at d a kw (v :: post) Ht Hc); exact Hw).
    assert (Hn : caddyfile.token_at d (caddyfile.cursor d + 1) = Some v).
    { replace (caddyfile.cursor d + 1)
        with (Z.of_nat (List.length (a ++ [kw])))
        by (rewrite List.length_app; simpl; lia).
      apply (token_at_app d (a ++ [kw]) v post). now rewrite <- app_assoc. }
    rewrite (directive_bootstrap_servers h d v Hv Hn).
    do 2 f_equal. lia.
  - destruct Hw as (Hu & _).
    rewrite <- (Val_at d a kw post Ht Hc) in Hu.
    rewrite (directive_unknown h d Hu),
      (Val_at d a kw post Ht Hc).
    replace (caddyfile.cursor d + 1 - 1) with (caddyfile.cursor d) by lia.
    now rewrite set_cursor_same.
Qed.

Lemma NextBlock_line (d : caddyfile.Dispenser)
      (a : list caddyfile.Token) (t : caddyfile.Token)
      (b : list caddyfile.Token) :
  caddyfile.nesting d = 1 ->
  caddyfile.tokens d = a ++ t :: b ->
  caddyfile.cursor d = Z.of_nat (List.length a) - 1 ->
  caddyfile.Text t <> "}" -> caddyfile.Text t <> "{" ->
  caddyfile.NextBlock 0 d
  = (true, caddyfile.set_cursor (Z.of_nat (List.length a)) d).
Proof.
  intros Hn Ht Hc H1 H2. unfold caddyfile.NextBlock.
  rewrite Hn, (Next_at d a t b Ht Hc). cbn [Z.ltb Z.compare negb].
  assert (Hv : caddyfile.Val
                 (caddyfile.set_cursor (Z.of_nat (List.length a)) d)
               = caddyfile.Text t)
    by (apply (Val_at _ a t b); [exact Ht | reflexivity]).
  apply String.eqb_neq in H1, H2.
  unfold caddyfile.andNotNextOnSameLine. rewrite Hv, H1.
  cbv beta iota. rewrite Hv, H2. cbv beta iota.
  change (caddyfile.nesting
            (caddyfile.set_cursor (Z.of_nat (List.length a)) d))
    with (caddyfile.nesting d).
  now rewrite Hn.
Qed.

Lemma NextBlock_close (d : caddyfile.Dispenser)
      (a : list caddyfile.Token) (close : caddyfile.Token)
      (rest : list caddyfile.Token) :
  caddyfile.nesting d = 1 ->
  caddyfile.tokens d = a ++ close :: rest ->
  caddyfile.cursor d = Z.of_nat (List.length a) - 1 ->
  caddyfile.Text close = "}" ->
  match rest with
  | [] => True
  | t :: _ => caddyfile.isNextOnNewLine close t = true
  end ->
  exists d', caddyfile.NextBlock 0 d = (false, d').
Proof.
  intros Hn Ht Hc Hclose Hrest. unfold caddyfile.NextBlock.
  rewrite Hn, (Next_at d a close rest Ht Hc). cbn [Z.ltb Z.compare negb].
  set (d1 := caddyfile.set_cursor (Z.of_nat (List.length a)) d).
  assert (Hv : caddyfile.Val d1 = "}")
    by (rewrite <- Hclose; apply (Val_at _ a close rest);
        [exact Ht | reflexivity]).
  assert (Hs : caddyfile.nextOnSameLine d1 = (false, d1)).
  { destruct rest as [|t rest].
    - apply (nextOnSameLine_at_end d1 a close); [exact Ht | reflexivity].
    - rewrite (nextOnSameLine_at d1 a close t rest);
        [now rewrite Hrest | exact Ht | reflexivity]. }
  unfold caddyfile.andNotNextOnSameLine. rewrite Hv. simpl.
  rewrite Hs. simpl. rewrite Hn. simpl. eauto.
Qed.

Lemma blockLoop_lines (close : caddyfile.Token)
      (rest : list caddyfile.Token) (ls : list Directive) :
  caddyfile.Text close = "}" ->
  match rest with
  | [] => True
  | t :: _ => caddyfile.isNextOnNewLine close t = true
  end ->
  Forall wellFormed ls ->
  forall (a : list caddyfile.Token) (h : KafkaHandler)
         (d : caddyfile.Dispenser),
    caddyfile.nesting d = 1 ->
    caddyfile.tokens d = a ++ List.flat_map lineTokens ls ++ close :: rest ->
    caddyfile.cursor d = Z.of_nat (List.length a) - 1 ->
    exists fuel d',
      blockLoop fuel h d
      = Some (fst (applyLines ls h), snd (applyLines ls h), d').
Proof.
  intros Hclose Hrest Hwf.
  induction Hwf as [|l ls Hl Hls IH]; intros a h d Hn Ht Hc.
  - simpl in Ht.
    destruct (NextBlock_close d a close rest Hn Ht Hc Hclose Hrest)
      as [d' Hb].
    exists 1%nat, d'. simpl. now rewrite Hb.
  - simpl in Ht. rewrite <- app_assoc in Ht.
    destruct (wellFormed_head l Hl) as (kw & args & Hlt & Hk1 & Hk2).
    set (d1 := caddyfile.set_cursor (Z.of_nat (List.length a)) d).
    assert (Hb : caddyfile.NextBlock 0 d = (true, d1)).
    { rewrite Hlt in Ht. simpl in Ht.
      apply (NextBlock_line d a kw _ Hn Ht Hc Hk1 Hk2). }
    pose proof (directive_line l h d1 a _ Ht eq_refl Hl) as Hd.
    set (d2 := caddyfile.set_cursor
                 (caddyfile.cursor d1
                  + Z.of_nat (List.length (lineTokens l)) - 1) d1) in *.
    destruct (lineEffect l h) as [[e|] h1] eqn:He; simpl in Hd.
    + exists 1%nat, d2. simpl. now rewrite Hb, Hd, He.
    + destruct (IH (a ++ lineTokens l) h1 d2) as (fuel & d' & Hloop).
      * exact Hn.
      * simpl. now rewrite Ht, <- app_assoc.
      * simpl. rewrite List.length_app. rewrite Hlt. simpl. lia.
      * exists (S fuel), d'. simpl. rewrite Hb, Hd, He. simpl. exact Hloop.
Qed.

Lemma parse_block
        (toks : list caddyfile.Token) (name brace : caddyfile.Token)
        (ls : list Directive) (close : caddyfile.Token)
        (rest : list caddyfile.Token) (h : KafkaHandler) :
  isBlock toks name brace ls close rest ->
  exists d',
    UnmarshalCaddyfile h (caddyfile.NewDispenser toks)
    = Some (fst (applyLines ls h), snd (applyLines ls h), d').
Proof.
  intros (Ht & Hsame & Hbrace & Hclose & Hrest & Hwf).
  set (d0 := caddyfile.set_cursor 0 (caddyfile.NewDispenser toks)).
  assert (Hnext : caddyfile.Next (caddyfile.NewDispenser toks) = (true, d0)).
  { apply (Next_at (caddyfile.NewDispenser toks) [] name
                   (brace :: List.flat_map lineTokens ls ++ close :: rest));
      [exact Ht | reflexivity]. }
  assert (Hloop : exists fuel d',
             blockLoop fuel h d0
             = Some (fst (applyLines ls h), snd (applyLines ls h), d')).
  { assert (Hs : caddyfile.nextOnSameLine d0
                 = (true, caddyfile.set_cursor 1 d0)).
    { rewrite (nextOnSameLine_at d0 [] name brace
                 (List.flat_map lineTokens ls ++ close :: rest));
        [now rewrite Hsame | exact Ht | reflexivity]. }
    set (d1 := caddyfile.set_cursor 1 d0) in *.
    assert (Hv1 : caddyfile.Val d1 = "{")
      by (rewrite <- Hbrace;
          apply (Val_at d1 [name] brace
                        (List.flat_map lineTokens ls ++ close :: rest));
          [exact Ht | reflexivity]).
    set (d2 := caddyfile.set_cursor 2 d1).
    assert (Hn2 : caddyfile.Next d1 = (true, d2)).
    { inversion Hwf as [Hnil | l ls' Hl Hls' Hcons]; subst ls;
        simpl in Ht.
      - apply (Next_at d1 [name; brace] close rest); [exact Ht | reflexivity].
      - destruct (wellFormed_head l Hl) as (kw & args & Hlt & _).
        rewrite Hlt in Ht. simpl in Ht.
        eapply (Next_at d1 [name; brace] kw); [exact Ht | reflexivity]. }
    destruct Hwf as [|l ls Hl Hls].
    - simpl in Ht. exists 1%nat, d2. simpl.
      unfold caddyfile.NextBlock. simpl caddyfile.nesting.
      cbn [Z.ltb Z.compare]. rewrite Hs. cbn [negb]. rewrite Hv1. simpl.
      rewrite Hn2.
      assert (Hv2 : caddyfile.Val d2 = "}")
        by (rewrite <- Hclose;
            apply (Val_at d2 [name; brace] close rest);
            [exact Ht | reflexivity]).
      now rewrite Hv2.
    - simpl in Ht.
      destruct (wellFormed_head l Hl) as (kw & args & Hlt & Hk1 & _).
      set (d3 := caddyfile.set_nesting 1 d2).
      assert (Hb : caddyfile.NextBlock 0 d0 = (true, d3)).
      { unfold caddyfile.NextBlock. simpl caddyfile.nesting.
        cbn [Z.ltb Z.compare]. rewrite Hs. cbn [negb]. rewrite Hv1. simpl.
        rewrite Hn2.
        assert (Hv2 : caddyfile.Val d2 = caddyfile.Text kw).
        { rewrite Hlt in Ht. simpl in Ht.
          eapply (Val_at d2 [name; brace] kw); [exact Ht | reflexivity]. }
        apply String.eqb_neq in Hk1. now rewrite Hv2, Hk1. }
      assert (Ht3 : caddyfile.tokens d3
                    = [name; brace] ++ lineTokens l
                        ++ (List.flat_map lineTokens ls ++ close :: rest))
        by (simpl; rewrite Ht, <- app_assoc; reflexivity).
      pose proof (directive_line l h d3 [name; brace] _ Ht3 eq_refl Hl) as Hd.
      set (d4 := caddyfile.set_cursor
                   (caddyfile.cursor d3
                    + Z.of_nat (List.length (lineTokens l)) - 1) d3) in *.
      simpl applyLines.
      destruct (lineEffect l h) as [[e|] h1] eqn:He; simpl in Hd.
      + exists 1%nat, d4. simpl. now rewrite Hb, Hd.
      + destruct (blockLoop_lines close rest ls Hclose Hrest Hls
                                  ([name; brace] ++ lineTokens l) h1 d4)
          as (fuel & d' & Hl4).
        * reflexivity.
        * simpl. now rewrite Ht, <- app_assoc.
        * unfold d4, d3, d2, d1, d0.
          cbn [caddyfile.cursor caddyfile.set_cursor caddyfile.set_nesting].
          rewrite List.length_app. cbn [List.length]. lia.
        * exists (S fuel), d'. simpl. rewrite Hb, Hd. exact Hl4. }
  destruct Hloop as (fuel & d' & Hl).
  exists d'. unfold UnmarshalCaddyfile. rewrite Hnext. cbn [negb].
  apply (blockLoop_rounds _ _ _ _ Hl).
Qed.

(** On a block of well-formed directives [UnmarshalCaddyfile] returns what
    the directives give when applied to the handler in order, each
    overwriting what an earlier one set, up to the first that fails: the
    error of that directive with the handler as it then stands, or nil
    after the last.  Line breaks between the directives play no part. *)
Theorem UnmarshalCaddyfile_block
        (toks : list caddyfile.Token) (name brace : caddyfile.Token)
        (ls : list Directive) (close : caddyfile.Token)
        (rest : list caddyfile.Token) (h : KafkaHandler) :
  isBlock toks name brace ls close rest ->
  exists d',
    UnmarshalCaddyfile h (caddyfile.NewDispenser toks)
    = Some (fst (applyLines ls h), snd (applyLines ls h), d').
Proof.
  intros Hb.
  destruct (parse_block toks name brace ls close rest h Hb) as [d' Hp].
  exists d'. exact Hp.
Qed.

Lemma UnmarshalCaddyfile_block_witness :
  exists d',
    UnmarshalCaddyfile newKafkaHandler (caddyfile.NewDispenser readmeBlock)
    = Some (None,
            set_SASLAuth true
              (set_SASLAlgorithm "sha512"
                 (set_SASLPassword "sasl_password"
                    (set_SASLUsername "sasl_user"
                       (set_TLSEnabled true
                          (set_Topic "caddy-events"
                             (set_BootstrapServers (Some ["localhost:9096"])
                                newKafkaHandler)))))),
            d').
Proof.
  apply (UnmarshalCaddyfile_block
           readmeBlock (tok 1 "kafka") (tok 1 "{") readmeLines (tok 6 "}") []
           newKafkaHandler).
  repeat split; try reflexivity.
  repeat constructor.
Defined.

Lemma applyLines_last (A : Type) (f : KafkaHandler -> A)
      (pick : Directive -> option A) :
  (forall l h h1,
      lineEffect l h = (None, h1) ->
      f h1 = match pick l with Some x => x | None => f h end) ->
  forall ls h h',
    applyLines ls h = (None, h') ->
    f h' = match lastOf pick ls with Some x => x | None => f h end.
Proof.
  intros Hstep ls. induction ls as [|l ls IH]; intros h h' Ha; simpl in *.
  - now inversion Ha.
  - destruct (lineEffect l h) as [[e|] h1] eqn:He; [discriminate|].
    rewrite (IH h1 h' Ha).
    destruct (lastOf pick ls); [reflexivity|].
    apply (Hstep l h h1 He).
Qed.

(** When a directive is repeated in a block the last one wins: after a
    successful parse the topic, the TLS flag and the bootstrap servers are
    those of the last [topic], [tls] and [bootstrap_servers] directive of
    the block, and those of the handler before when the block has none. *)
Theorem UnmarshalCaddyfile_last_wins
        (toks : list caddyfile.Token) (name brace : caddyfile.Token)
        (ls : list Directive) (close : caddyfile.Token)
        (rest : list caddyfile.Token)
        (h h' : KafkaHandler) (d' : caddyfile.Dispenser) :
  isBlock toks name brace ls close rest ->
  UnmarshalCaddyfile h (caddyfile.NewDispenser toks) = Some (None, h', d') ->
  Topic h' = match lastOf topicOf ls with
             | Some v => v
             | None => Topic h
             end /\
  TLSEnabled h' = match lastOf tlsOf ls with
                  | Some b => b
                  | None => TLSEnabled h
                  end /\
  BootstrapServers h' = match lastOf serversOf ls with
                        | Some s => s
                        | None => BootstrapServers h
                        end.
Proof.
  intros Hb Hp.
  destruct (parse_block toks name brace ls close rest h Hb) as [d1 Hp1].
  rewrite Hp in Hp1.
  assert (Ha : applyLines ls h = (None, h'))
    by (destruct (applyLines ls h); simpl in *; congruence).
  clear Hp1.
  repeat split.
  - apply (applyLines_last _ Topic topicOf); [|exact Ha].
    intros l h0 h1.
    destruct l; simpl;
      repeat match goal with
             | |- context [if ?c then _ else _] => destruct c
             end; intros He; inversion He; reflexivity.
  - apply (applyLines_last _ TLSEnabled tlsOf); [|exact Ha].
    intros l h0 h1.
    destruct l; simpl;
      repeat match goal with
             | |- context [if ?c then _ else _] => destruct c eqn:?
             end; intros He; inversion He; reflexivity.
  - apply (applyLines_last _ BootstrapServers serversOf); [|exact Ha].
    intros l h0 h1.
    destruct l; simpl;
      repeat match goal with
             | |- context [if ?c then _ else _] => destruct c
             end; intros He; inversion He; reflexivity.
Qed.

Lemma UnmarshalCaddyfile_last_wins_witness :
  exists h' d',
    UnmarshalCaddyfile newKafkaHandler (caddyfile.NewDispenser repeatedBlock)
    = Some (None, h', d') /\
    Topic h' = "second" /\ TLSEnabled h' = false.
Proof.
  assert (Hp : exists h' d',
             UnmarshalCaddyfile newKafkaHandler
                                (caddyfile.NewDispenser repeatedBlock)
             = Some (None, h', d'))
    by (do 2 eexists; vm_compute; reflexivity).
  destruct Hp as (h' & d' & Hp). exists h', d'. split; [exact Hp|].
  destruct (UnmarshalCaddyfile_last_wins
              repeatedBlock (tok 1 "kafka") (tok 1 "{") repeatedLines
              (tok 6 "}") [] newKafkaHandler h' d')
    as (Ht & Htls & _).
  - repeat split; try reflexivity. repeat constructor.
  - exact Hp.
  - split; [exact Ht | exact Htls].
Defined.

(** ** A directive without a block, and no tokens at all *)

(** Without tokens [UnmarshalCaddyfile] returns the dispenser's argument
    error.  With tokens that do not open a block after the first (no second
    token, or one on another line, or one that is not an opening brace) it
    returns nil and leaves the handler as it was: what follows the name is
    not looked at. *)
Theorem UnmarshalCaddyfile_without_block
        (h : KafkaHandler) (name : caddyfile.Token)
        (rest : list caddyfile.Token) :
  match rest with
  | [] => True
  | t :: _ =>
      caddyfile.isNextOnNewLine name t = true \/ caddyfile.Text t <> "{"
  end ->
  (exists d',
      UnmarshalCaddyfile h (caddyfile.NewDispenser (name :: rest))
      = Some (None, h, d')) /\
  UnmarshalCaddyfile h (caddyfile.NewDispenser [])
  = Some (Some (Go.WrapErr
                  "wrong argument count or unexpected line ending after ''"
                  "" 0), h, caddyfile.NewDispenser []).
Proof.
  intros Hrest. split; [|reflexivity].
  set (d0 := caddyfile.set_cursor 0 (caddyfile.NewDispenser (name :: rest))).
  assert (Hnext : caddyfile.Next (caddyfile.NewDispenser (name :: rest))
                  = (true, d0))
    by (apply (Next_at _ [] name rest); reflexivity).
  assert (Hb : exists d', caddyfile.NextBlock 0 d0 = (false, d')).
  { unfold caddyfile.NextBlock. simpl caddyfile.nesting.
    cbn [Z.ltb Z.compare].
    destruct rest as [|t rest].
    - rewrite (nextOnSameLine_at_end d0 [] name); try reflexivity.
      simpl. eauto.
    - rewrite (nextOnSameLine_at d0 [] name t rest); try reflexivity.
      destruct (caddyfile.isNextOnNewLine name t) eqn:Hline;
        cbn [negb]; [eauto|].
      destruct Hrest as [Hx|Hx]; [discriminate|].
      assert (Hv : caddyfile.Val
                     (caddyfile.set_cursor (Z.of_nat (List.length (@nil caddyfile.Token)) + 1) d0)
                   = caddyfile.Text t)
        by (apply (Val_at _ [name] t rest); reflexivity).
      apply String.eqb_neq in Hx. rewrite Hv, Hx. simpl. eauto. }
  destruct Hb as [d' Hb]. exists d'.
  unfold UnmarshalCaddyfile. rewrite Hnext. cbn [negb].
  apply (blockLoop_rounds 1). simpl. now rewrite Hb.
Qed.

Lemma UnmarshalCaddyfile_without_block_witness :
  exists d',
    UnmarshalCaddyfile saslUser
                       (caddyfile.NewDispenser [tok 1 "kafka"; tok 1 "extra"])
    = Some (None, saslUser, d').
Proof.
  apply (UnmarshalCaddyfile_without_block
           saslUser (tok 1 "kafka") [tok 1 "extra"]).
  right. discriminate.
Defined.

Lemma tls_directive_witness :
  directive newKafkaHandler (inBlockAt readmeBlock 6)
  = (None, set_TLSEnabled true newKafkaHandler, inBlockAt readmeBlock 7).
Proof.
  apply (proj1 (tls_directive newKafkaHandler (inBlockAt readmeBlock 6)
                              eq_refl) "on" []).
  reflexivity.
Defined.

(** ** Parsing, then validating *)

Lemma lastOf_In (A : Type) (pick : Directive -> option A)
      (ls : list Directive) (x : A) :
  lastOf pick ls = Some x -> exists l, In l ls /\ pick l = Some x.
Proof.
  induction ls as [|l ls IH]; simpl; [discriminate|].
  destruct (lastOf pick ls) as [y|].
  - intros H. destruct (IH H) as (l' & Hin & Hp). eauto.
  - intros H. eauto.
Qed.

Lemma serversOf_nonempty (ls : list Directive) (s : Go.slice string) :
  lastOf serversOf ls = Some s -> 0 < Go.len s.
Proof.
  intros H. destruct (lastOf_In _ _ _ _ H) as (l & _ & Hp).
  destruct l; simpl in Hp; try discriminate. inversion Hp; subst s. simpl.
  rewrite List.length_map.
  pose proof (Split_nonempty ","%char (caddyfile.Text v)) as Hne.
  destruct (Go.Split (caddyfile.Text v) ","%char); [now elim Hne | simpl; lia].
Qed.

(** The parser accepts a block that lacks a directive and leaves it to
    [Validate] to refuse the handler: after a successful parse of a block
    into a new handler, [Validate] reports the bootstrap servers missing
    exactly when the block has no [bootstrap_servers] directive, and the
    topic missing exactly when it has one but its last [topic] directive
    is absent or names the empty string. *)
Theorem parsed_block_validation
        (toks : list caddyfile.Token) (name brace : caddyfile.Token)
        (ls : list Directive) (close : caddyfile.Token)
        (rest : list caddyfile.Token)
        (h' : KafkaHandler) (d' : caddyfile.Dispenser) :
  isBlock toks name brace ls close rest ->
  UnmarshalCaddyfile newKafkaHandler (caddyfile.NewDispenser toks)
  = Some (None, h', d') ->
  (Validate h' = Some (Go.Errorf "kafka bootstrap_servers missing") <->
   lastOf serversOf ls = None) /\
  (Validate h' = Some (Go.Errorf "kafka topic missing") <->
   lastOf serversOf ls <> None /\
   (lastOf topicOf ls = None \/ lastOf topicOf ls = Some "")).
Proof.
  intros Hb Hp.
  destruct (parse_block toks name brace ls close rest newKafkaHandler Hb)
    as [d1 Hp1].
  rewrite Hp in Hp1.
  assert (Ha : applyLines ls newKafkaHandler = (None, h'))
    by (destruct (applyLines ls newKafkaHandler); simpl in *; congruence).
  clear Hp1.
  assert (Hs : BootstrapServers h'
               = match lastOf serversOf ls with
                 | Some s => s
                 | None => BootstrapServers newKafkaHandler
                 end).
  { apply (applyLines_last _ BootstrapServers serversOf); [|exact Ha].
    intros l h0 h1.
    destruct l; simpl;
      repeat match goal with
             | |- context [if ?c then _ else _] => destruct c
             end; intros He; inversion He; reflexivity. }
  assert (Ht : Topic h'
               = match lastOf topicOf ls with
                 | Some v => v
                 | None => Topic newKafkaHandler
                 end).
  { apply (applyLines_last _ Topic topicOf); [|exact Ha].
    intros l h0 h1.
    destruct l; simpl;
      repeat match goal with
             | |- context [if ?c then _ else _] => destruct c
             end; intros He; inversion He; reflexivity. }
  unfold Validate. rewrite Hs, Ht.
  destruct (lastOf serversOf ls) as [s|] eqn:Hl.
  - pose proof (serversOf_nonempty ls s Hl) as Hpos.
    destruct s as [[|x xs]|]; simpl in Hpos; try lia. simpl.
    split.
    + split; [|discriminate].
      repeat match goal with
             | |- context [if ?c then _ else _] => destruct c
             end; discriminate.
    + destruct (lastOf topicOf ls) as [v|]; simpl.
      * destruct (String.eqb_spec v "") as [->|Hv].
        { split; [intros _; split; [discriminate | now right] | reflexivity]. }
        split.
        { repeat match goal with
                 | |- context [if ?c then _ else _] => destruct c
                 end; discriminate. }
        intros [_ [Hx|Hx]]; [discriminate | congruence].
      * split; [intros _; split; [discriminate | now left] | reflexivity].
  - simpl. split.
    + split; reflexivity.
    + split; [discriminate | intros [Hx _]; now elim Hx].
Qed.

Lemma parsed_block_validation_witness :
  exists h' d',
    UnmarshalCaddyfile newKafkaHandler (caddyfile.NewDispenser repeatedBlock)
    = Some (None, h', d') /\
    Validate h' = Some (Go.Errorf "kafka bootstrap_servers missing").
Proof.
  assert (Hp : exists h' d',
             UnmarshalCaddyfile newKafkaHandler
                                (caddyfile.NewDispenser repeatedBlock)
             = Some (None, h', d'))
    by (do 2 eexists; vm_compute; reflexivity).
  destruct Hp as (h' & d' & Hp). exists h', d'. split; [exact Hp|].
  destruct (parsed_block_validation
              repeatedBlock (tok 1 "kafka") (tok 1 "{") repeatedLines
              (tok 6 "}") [] h' d') as [Hs _].
  - repeat split; try reflexivity. repeat constructor.
  - exact Hp.
  - apply Hs. reflexivity.
Defined.
